(** * Text summarizer (Flask + Gemini): the fallback orchestration of app.py

    A shallow embedding of [src/app.py]: the prompt builder, the two provider
    clients ([_genai_summarize], [_http_generate]), the orchestrators
    ([summarize], [image_context]) and the route [analyze].

    Conventions.
    - A Python [str] is the list of its Unicode code points ([pystr]).
    - Values that arrive as [Any] (parsed JSON, the options dictionary) are
      [json] values; a Python [dict] is an association list read with
      first-match lookup.
    - A Python exception is a value of [exn]; code that may raise lives in
      [outcome], code that also talks to the outside world in the monad [M],
      which threads the world and a log of the external calls made so far.
    - What belongs to the Python runtime or to third-party libraries
      ([str.lower] on the whole of Unicode, [json.loads], [base64], PIL, the
      google.generativeai handle, [requests.post]) is a field of [Env].
    - Output written with [print] is not modelled. *)

From Stdlib Require Import List String Ascii ZArith NArith Bool Lia.
From Stdlib Require Import Floats.SpecFloat DecimalString Strings.Byte.
Import ListNotations.

Set Implicit Arguments.
Set Warnings "-register-all".

(* ================================================================== *)
(** ** Python strings *)

Module PyStr.

Definition pystr := list N.

Definition lit (s : string) : pystr :=
  map (fun a => N_of_ascii a) (list_ascii_of_string s).

Fixpoint eqb (s t : pystr) : bool :=
  match s, t with
  | [], [] => true
  | a :: s', b :: t' => N.eqb a b && eqb s' t'
  | _, _ => false
  end.

(** [str.isspace] on one code point: the characters [str.strip] removes. *)
Definition isspace (c : N) : bool :=
  ((9 <=? c) && (c <=? 13) || (28 <=? c) && (c <=? 32)
   || (c =? 133) || (c =? 160) || (c =? 5760)
   || (8192 <=? c) && (c <=? 8202)
   || (c =? 8232) || (c =? 8233) || (c =? 8239) || (c =? 8287)
   || (c =? 12288))%N.

Fixpoint lstrip (s : pystr) : pystr :=
  match s with
  | c :: s' => if isspace c then lstrip s' else s
  | [] => []
  end.

Definition rstrip (s : pystr) : pystr := rev (lstrip (rev s)).

Definition strip (s : pystr) : pystr := rstrip (lstrip s).

Fixpoint startswith (s p : pystr) : bool :=
  match p, s with
  | [], _ => true
  | b :: p', a :: s' => N.eqb a b && startswith s' p'
  | _ :: _, [] => false
  end.

(** [needle in s] *)
Fixpoint contains (s needle : pystr) : bool :=
  startswith s needle ||
  match s with
  | [] => false
  | _ :: s' => contains s' needle
  end.

Definition is_ascii (s : pystr) : bool := forallb (fun c => (c <? 128)%N) s.

(** [str.lower] restricted to ASCII: A-Z go to a-z, the rest stays. *)
Definition lower_char (c : N) : N :=
  if ((65 <=? c) && (c <=? 90))%N then (c + 32)%N else c.

Definition ascii_lower (s : pystr) : pystr := map lower_char s.

(** [str(n)] for an integer. *)
Definition of_Z (z : Z) : pystr := lit (NilZero.string_of_int (Z.to_int z)).

End PyStr.

Import PyStr.

Declare Scope py_scope.
Delimit Scope py_scope with py.
Notation "'u' s" := (lit s) (at level 1, s at level 0, only parsing) : py_scope.
Open Scope py_scope.

(* ================================================================== *)
(** ** Dynamic values *)

Definition dict (V : Type) := list (pystr * V).

Fixpoint dict_lookup {V} (d : dict V) (k : pystr) : option V :=
  match d with
  | [] => None
  | (k', v) :: d' => if PyStr.eqb k' k then Some v else dict_lookup d' k
  end.

(** [d.get(k, dflt)] *)
Definition dict_get_default {V} (d : dict V) (k : pystr) (dflt : V) : V :=
  match dict_lookup d k with
  | Some v => v
  | None => dflt
  end.

(** [d[k] = v] *)
Definition dict_set {V} (d : dict V) (k : pystr) (v : V) : dict V :=
  (k, v) :: d.

Inductive json : Type :=
| JNull
| JBool (b : bool)
| JInt (z : Z)
| JFloat (f : spec_float)
| JStr (s : pystr)
| JArr (l : list json)
| JObj (d : list (pystr * json)).

(** Python truth value of an object. *)
Definition truthy (v : json) : bool :=
  match v with
  | JNull => false
  | JBool b => b
  | JInt z => negb (Z.eqb z 0)
  | JFloat (S754_zero _) => false
  | JFloat _ => true
  | JStr s => negb (PyStr.eqb s [])
  | JArr l => match l with [] => false | _ => true end
  | JObj d => match d with [] => false | _ => true end
  end.

(** [a or b] *)
Definition py_or (a b : json) : json := if truthy a then a else b.

(** [type(v).__name__] *)
Definition type_name (v : json) : pystr :=
  match v with
  | JNull => u"NoneType"
  | JBool _ => u"bool"
  | JInt _ => u"int"
  | JFloat _ => u"float"
  | JStr _ => u"str"
  | JArr _ => u"list"
  | JObj _ => u"dict"
  end.

(** Truth value of an [Optional[str]]. *)
Definition opt_truthy (o : option pystr) : bool :=
  match o with
  | Some (_ :: _) => true
  | _ => false
  end.

(* ================================================================== *)
(** ** Exceptions *)

Inductive exn_class :=
| AttributeError | KeyError | IndexError | TypeError | ValueError | RuntimeError.

Record exn := mk_exn { exn_type : exn_class; exn_str : pystr }.

Definition class_name (c : exn_class) : pystr :=
  match c with
  | AttributeError => u"AttributeError"
  | KeyError => u"KeyError"
  | IndexError => u"IndexError"
  | TypeError => u"TypeError"
  | ValueError => u"ValueError"
  | RuntimeError => u"RuntimeError"
  end.

Inductive outcome (A : Type) : Type :=
| Ok (a : A)
| Exc (e : exn).
Arguments Ok {A} a.
Arguments Exc {A} e.

Definition obind {A B} (m : outcome A) (k : A -> outcome B) : outcome B :=
  match m with
  | Ok a => k a
  | Exc e => Exc e
  end.

Declare Scope exc_scope.
Delimit Scope exc_scope with exc.
Notation "x <- m ;; k" := (obind m (fun x => k))
  (at level 61, m at next level, right associativity) : exc_scope.

Definition no_attribute (v : json) (attr : pystr) : exn :=
  mk_exn AttributeError
    (u"'" ++ type_name v ++ u"' object has no attribute '" ++ attr ++ u"'").

(** [v.get(k)]: only a dict has the method. *)
Definition py_get (v : json) (k : pystr) : outcome json :=
  match v with
  | JObj d => Ok (dict_get_default d k JNull)
  | _ => Exc (no_attribute v (u"get"))
  end.

(** [v.lower()] and [v.strip()]: only a str has them. *)
Definition py_method_str (name : pystr) (f : pystr -> pystr) (v : json)
  : outcome pystr :=
  match v with
  | JStr s => Ok (f s)
  | _ => Exc (no_attribute v name)
  end.

(** [v[k]] for a string key. *)
Definition py_item_key (v : json) (k : pystr) : outcome json :=
  match v with
  | JObj d =>
      match dict_lookup d k with
      | Some x => Ok x
      | None => Exc (mk_exn KeyError (u"'" ++ k ++ u"'"))
      end
  | JArr _ => Exc (mk_exn TypeError (u"list indices must be integers or slices, not str"))
  | JStr _ => Exc (mk_exn TypeError (u"string indices must be integers"))
  | _ => Exc (mk_exn TypeError (u"'" ++ type_name v ++ u"' object is not subscriptable"))
  end.

(** [v[0]] *)
Definition py_item_0 (v : json) : outcome json :=
  match v with
  | JArr (x :: _) => Ok x
  | JArr [] => Exc (mk_exn IndexError (u"list index out of range"))
  | JStr (c :: _) => Ok (JStr [c])
  | JStr [] => Exc (mk_exn IndexError (u"string index out of range"))
  | JObj _ => Exc (mk_exn KeyError (u"0"))
  | _ => Exc (mk_exn TypeError (u"'" ++ type_name v ++ u"' object is not subscriptable"))
  end.

(** [d[k]] on a dictionary literal. *)
Definition dict_item {V} (d : dict V) (k : pystr) : outcome V :=
  match dict_lookup d k with
  | Some v => Ok v
  | None => Exc (mk_exn KeyError (u"'" ++ k ++ u"'"))
  end.

(* ================================================================== *)
(** ** Objects of the outside world *)

(** An attribute of a library object: not there, a property that raises,
    or a value. *)
Inductive attr (A : Type) : Type :=
| Missing
| Raising (e : exn)
| Has (a : A).
Arguments Missing {A}.
Arguments Raising {A} e.
Arguments Has {A} a.

Definition is_attribute_error (e : exn) : bool :=
  match exn_type e with
  | AttributeError => true
  | _ => false
  end.

(** [hasattr(o, name)]: false for a missing attribute and for a property
    that raises AttributeError; every other exception goes through. *)
Definition hasattr {A} (a : attr A) : outcome bool :=
  match a with
  | Missing => Ok false
  | Raising e => if is_attribute_error e then Ok false else Exc e
  | Has _ => Ok true
  end.

(** [o.name] *)
Definition getattr {A} (owner name : pystr) (a : attr A) : outcome A :=
  match a with
  | Missing =>
      Exc (mk_exn AttributeError
             (u"'" ++ owner ++ u"' object has no attribute '" ++ name ++ u"'"))
  | Raising e => Exc e
  | Has v => Ok v
  end.

(** [getattr(o, name, None)]: the default for a missing attribute and for a
    property that raises AttributeError. *)
Definition getattr_none {A} (a : attr A) : outcome (option A) :=
  match a with
  | Missing => Ok None
  | Raising e => if is_attribute_error e then Ok None else Exc e
  | Has v => Ok (Some v)
  end.

(** The response object of [generate_content], as far as app.py looks at it. *)
Record gen_part := { part_text : attr (option pystr) }.
Record gen_content := { content_parts : attr (list gen_part) }.
Record gen_candidate := { cand_content : attr (option gen_content) }.
Record gen_response := {
  resp_text : attr (option pystr);
  resp_candidates : attr (list gen_candidate)
}.

Inductive gen_outcome :=
| GenRaise (e : exn)
| GenReturn (r : gen_response).

(** [{"inline_data": {"data": b64, "mime_type": mime}}] *)
Record image_part := { inline_data : pystr; mime_type : pystr }.

Inductive gen_request :=
| GenText (prompt : pystr)
| GenVision (prompt : pystr) (img : image_part).

Record http_request := {
  url : pystr;
  headers : dict pystr;
  body : json;
  timeout : Z
}.

(** [requests.post] raises, or returns a response with [status_code] and a
    body that [r.json()] either parses ([Some]) or rejects ([None]). *)
Inductive http_outcome :=
| HttpRaise (e : exn)
| HttpResponse (status_code : Z) (payload : option json).

Record genai_lib (Handle : Type) := {
  configure : pystr -> bool;                (* false: it raised *)
  GenerativeModel : pystr -> option Handle  (* None: it raised *)
}.

Record Env := {
  World : Type;
  Handle : Type;
  generate_content : Handle -> gen_request -> World -> gen_outcome * World;
  requests_post : http_request -> World -> http_outcome * World;
  genai : option (genai_lib Handle);
  getenv : pystr -> option pystr;
  str_lower : pystr -> pystr;
  str_other : json -> pystr;                (* str(v) for v not a str *)
  json_loads : pystr -> option json;        (* None: it raised *)
  b64encode : list byte -> pystr;
  image_open : list byte -> option (Z * Z)  (* None: PIL raised *)
}.

Record file_storage := { fs_data : list byte; fs_mimetype : pystr }.

Record request := {
  content_type : option pystr;
  get_json : json;          (* request.get_json(silent=True); JNull for None *)
  form : dict pystr;
  files : dict file_storage
}.

Record response := { resp_body : json; resp_status : Z }.

(** The dictionary [summarize] returns. *)
Record summary_result := {
  summary : pystr;
  meta_model : pystr;
  meta_mode : pystr;
  meta_source : pystr;
  meta_options : json;
  tokens_used : json
}.

Definition FALLBACK_MODEL : pystr := u"gemini-1.5-flash".

Definition nl : pystr := [10%N].

(* ================================================================== *)
(** ** The program *)

Section App.

Variable E : Env.

Inductive event :=
| EvGenerate (h : Handle E) (req : gen_request)
| EvPost (req : http_request).

Record state := { world : World E; log : list event }.

(** Computations that may raise and may call the outside world. *)
Definition M (A : Type) := state -> outcome A * state.

Definition ret {A} (a : A) : M A := fun st => (Ok a, st).

Definition raise {A} (e : exn) : M A := fun st => (Exc e, st).

Definition bind {A B} (m : M A) (k : A -> M B) : M B :=
  fun st =>
    match m st with
    | (Ok a, st') => k a st'
    | (Exc e, st') => (Exc e, st')
    end.

Definition lift {A} (o : outcome A) : M A := fun st => (o, st).

(** [try: m  except Exception as e: h e] *)
Definition try_except {A} (m : M A) (h : exn -> M A) : M A :=
  fun st =>
    match m st with
    | (Ok a, st') => (Ok a, st')
    | (Exc e, st') => h e st'
    end.

Notation "x <- m ;; k" := (bind m (fun x => k))
  (at level 61, m at next level, right associativity).

(** [_genai_model.generate_content(...)] *)
Definition call_generate (h : Handle E) (req : gen_request) : M gen_response :=
  fun st =>
    let '(out, w) := generate_content E h req (world st) in
    let st' := {| world := w; log := log st ++ [EvGenerate h req] |} in
    match out with
    | GenRaise e => (Exc e, st')
    | GenReturn r => (Ok r, st')
    end.

(** [requests.post(...)] *)
Definition call_post (req : http_request) : M (Z * option json) :=
  fun st =>
    let '(out, w) := requests_post E req (world st) in
    let st' := {| world := w; log := log st ++ [EvPost req] |} in
    match out with
    | HttpRaise e => (Exc e, st')
    | HttpResponse code payload => (Ok (code, payload), st')
    end.

(** *** Configuration (app.py, lines 23-42) *)

Record config := {
  API_KEY : pystr;
  DEFAULT_MODEL : pystr;
  _genai_model : option (Handle E)
}.

Definition nonempty (s : pystr) : bool := negb (PyStr.eqb s []).

Definition getenv_or (name : pystr) (rest : pystr) : pystr :=
  match getenv E name with
  | Some v => if nonempty v then v else rest
  | None => rest
  end.

Definition module_config : config :=
  let key := getenv_or (u"GEMINI_API_KEY") (getenv_or (u"GOOGLE_API_KEY") []) in
  let default_model :=
    match getenv E (u"MODEL") with
    | Some m => m
    | None => u"gemini-2.0-flash"
    end in
  let model :=
    match genai E with
    | Some lib =>
        if nonempty key then
          match (if configure lib key then GenerativeModel lib default_model
                 else None) with
          | Some h => Some h
          | None => GenerativeModel lib FALLBACK_MODEL
          end
        else None
    | None => None
    end in
  {| API_KEY := key; DEFAULT_MODEL := default_model; _genai_model := model |}.

Variable cfg : config.

(** *** Utility functions *)

Definition style_map : dict pystr :=
  [ (u"short", u"2-3 concise sentences");
    (u"medium", u"a tight single paragraph");
    (u"detailed", u"a detailed yet concise multi-paragraph summary") ].

Definition tone_map : dict pystr :=
  [ (u"neutral", u"neutral, factual prose");
    (u"bullet", u"concise bullet points");
    (u"technical", u"precise technical language") ].

(** What an f-string puts for [{v}]. *)
Definition py_format (v : json) : pystr :=
  match v with
  | JStr s => s
  | _ => str_other E v
  end.

(** Line 63: [f" in {language}" if language else ""]. *)
Definition language_part (language : json) : pystr :=
  if truthy language then u" in " ++ py_format language else [].

Definition build_summary_prompt (text : pystr) (options : json) : outcome pystr :=
  (l0 <- py_get options (u"length") ;;
   length <- py_method_str (u"lower") (str_lower E) (py_or l0 (JStr (u"medium"))) ;;
   t0 <- py_get options (u"tone") ;;
   tone <- py_method_str (u"lower") (str_lower E) (py_or t0 (JStr (u"neutral"))) ;;
   g0 <- py_get options (u"language") ;;
   let language := py_or g0 (JStr []) in
   style_dflt <- dict_item style_map (u"medium") ;;
   let style := dict_get_default style_map length style_dflt in
   tone_dflt <- dict_item tone_map (u"neutral") ;;
   let tone_desc := dict_get_default tone_map tone tone_dflt in
   let lang_part := language_part language in
   Ok (u"You are a careful assistant that preserves facts, figures, and names. "
       ++ u"Summarize the following text as " ++ style ++ u" using " ++ tone_desc
       ++ lang_part ++ u". "
       ++ u"Highlight critical numbers. If there is uncertainty, mention it briefly."
       ++ nl ++ nl ++ strip text))%exc.

(** [resp.text.strip()] *)
Definition strip_opt (t : option pystr) : outcome (option pystr) :=
  match t with
  | Some s => Ok (Some (strip s))
  | None => Exc (mk_exn AttributeError
                   (u"'NoneType' object has no attribute 'strip'"))
  end.

(** [hasattr(resp, "text") and resp.text], then [resp.text.strip()]:
    [Some r] is the value returned, [None] means the test was false. *)
Definition text_if_present (owner : pystr) (a : attr (option pystr))
  : outcome (option (option pystr)) :=
  (has <- hasattr a ;;
   if has then
     t <- getattr owner (u"text") a ;;
     if opt_truthy t then
       r <- strip_opt t ;; Ok (Some r)
     else Ok None
   else Ok None)%exc.

(** Lines 80-84, the attribute walk of the second extraction. *)
Definition candidates_text (resp : gen_response) : outcome (option pystr) :=
  (cs <- getattr_none (resp_candidates resp) ;;
   match cs with
   | Some (cand :: _) =>
       c <- getattr_none (cand_content cand) ;;
       parts <-
         match c with
         | Some (Some content) =>
             getattr (u"Content") (u"parts") (content_parts content)
         | _ => Ok []
         end ;;
       match parts with
       | p :: _ =>
           has <- hasattr (part_text p) ;;
           if has then
             t <- getattr (u"Part") (u"text") (part_text p) ;;
             strip_opt t
           else Ok None
       | [] => Ok None
       end
   | _ => Ok None
   end)%exc.

Definition _genai_summarize (prompt : pystr) : M (option pystr) :=
  match _genai_model cfg with
  | None => ret None
  | Some model =>
      try_except
        (resp <- call_generate model (GenText prompt) ;;
         r <- lift (text_if_present (u"GenerateContentResponse") (resp_text resp)) ;;
         match r with
         | Some res => ret res
         | None => lift (candidates_text resp)
         end)
        (fun _ => ret None)
  end.

Definition generate_url (model_name : pystr) : pystr :=
  u"https://generativelanguage.googleapis.com/v1beta/models/"
  ++ model_name ++ u":generateContent".

Definition generate_body (prompt : pystr) : json :=
  JObj [ (u"contents", JArr [ JObj [ (u"parts", JArr [ JObj [ (u"text", JStr prompt) ] ]) ] ]) ].

Definition generate_request (prompt model_name : pystr) : http_request :=
  {| url := generate_url model_name;
     headers := [ (u"Content-Type", u"application/json");
                  (u"X-goog-api-key", API_KEY cfg) ];
     body := generate_body prompt;
     timeout := 40 |}.

(** [data['candidates'][0]['content']['parts'][0]['text'].strip()] *)
Definition extract_text (data : json) : outcome pystr :=
  (a <- py_item_key data (u"candidates") ;;
   b <- py_item_0 a ;;
   c <- py_item_key b (u"content") ;;
   d <- py_item_key c (u"parts") ;;
   e <- py_item_0 d ;;
   f <- py_item_key e (u"text") ;;
   py_method_str (u"strip") strip f)%exc.

(** [r.json()] *)
Definition response_json (payload : option json) : outcome json :=
  match payload with
  | Some data => Ok data
  | None => Exc (mk_exn ValueError (u"Expecting value"))
  end.

Definition _http_generate (prompt model_name : pystr) : M (option pystr) :=
  if negb (nonempty (API_KEY cfg)) then ret None
  else
    try_except
      (r <- call_post (generate_request prompt model_name) ;;
       let '(code, payload) := r in
       if (code =? 200)%Z then
         data <- lift (response_json payload) ;;
         t <- lift (extract_text data) ;;
         ret (Some t)
       else ret None)
      (fun _ => ret None).

Definition summarize (text : pystr) (options : json) : M summary_result :=
  prompt <- lift (build_summary_prompt text options) ;;
  summary <- _genai_summarize prompt ;;
  let used_model := DEFAULT_MODEL cfg in
  let source := u"genai" in
  s1 <- (if negb (opt_truthy summary) then
           summary' <- _http_generate prompt (DEFAULT_MODEL cfg) ;;
           ret (summary', u"http")
         else ret (summary, source)) ;;
  let '(summary, source) := s1 in
  s2 <- (if negb (opt_truthy summary) then
           summary' <- _http_generate prompt FALLBACK_MODEL ;;
           if opt_truthy summary' then
             ret (summary', FALLBACK_MODEL, u"http-fallback")
           else ret (summary', used_model, source)
         else ret (summary, used_model, source)) ;;
  let '(summary, used_model, source) := s2 in
  match summary with
  | Some (c :: s) =>
      ret {| summary := c :: s;
             meta_model := used_model;
             meta_mode := u"summarize";
             meta_source := source;
             meta_options := options;
             tokens_used := JNull |}
  | _ => raise (mk_exn RuntimeError (u"All summarization methods failed"))
  end.

Definition encode_image (file : file_storage) : image_part * list byte :=
  let data := fs_data file in
  let b64 := b64encode E data in
  let mime := if nonempty (fs_mimetype file) then fs_mimetype file
              else u"image/png" in
  ({| inline_data := b64; mime_type := mime |}, data).

Definition image_context (prompt : pystr) (part : image_part) : M (option pystr) :=
  match _genai_model cfg with
  | Some model =>
      try_except
        (resp <- call_generate model (GenVision prompt part) ;;
         r <- lift (text_if_present (u"GenerateContentResponse") (resp_text resp)) ;;
         match r with
         | Some res => ret res
         | None => ret None
         end)
        (fun _ => ret None)
  | None => ret None
  end.

(** *** Routes *)

Definition json_is_str (v : json) (s : pystr) : bool :=
  match v with
  | JStr x => PyStr.eqb x s
  | _ => false
  end.

Definition error_body (msg : pystr) : json := JObj [ (u"error", JStr msg) ].

(** [jsonify(result)] for the dictionary of [summarize]. *)
Definition result_json (r : summary_result) : json :=
  JObj [ (u"summary", JStr (summary r));
         (u"meta", JObj [ (u"model", JStr (meta_model r));
                          (u"mode", JStr (meta_mode r));
                          (u"source", JStr (meta_source r));
                          (u"options", meta_options r) ]);
         (u"tokens_used", tokens_used r) ].

Definition is_json_request (req : request) : bool :=
  match content_type req with
  | Some ct => nonempty ct && startswith ct (u"application/json")
  | None => false
  end.

(** Lines 194-199: the prompt of an image request. *)
Definition image_prompt (language : json) : pystr :=
  let base_prompt :=
    u"You are an assistant describing the provided image. "
    ++ u"Identify notable objects, text, and context succinctly." in
  if truthy language then base_prompt ++ u" Respond in " ++ py_format language ++ u"."
  else base_prompt.

Definition unavailable : pystr :=
  u"(Vision model unavailable or failed. No analysis produced.)".

Definition size_string (raw_bytes : list byte) : pystr :=
  match image_open E raw_bytes with
  | Some (w, h) => of_Z w ++ u"x" ++ of_Z h
  | None => u"unknown"
  end.

Definition image_body (analysis size_str : pystr) (options : json) : json :=
  JObj [ (u"analysis", JStr analysis);
         (u"tokens_used", JNull);
         (u"meta", JObj [ (u"model", JStr (DEFAULT_MODEL cfg));
                          (u"mode", JStr (u"image_context"));
                          (u"image_size", JStr size_str);
                          (u"options", options) ]) ].

(** Lines 178-183: the options of an image request. *)
Definition request_options (req : request) : json :=
  let options_raw :=
    match dict_lookup (form req) (u"options") with
    | Some raw => if nonempty raw then raw else u"{}"
    | None => u"{}"
    end in
  match json_loads E options_raw with
  | Some v => v
  | None => JObj []
  end.

(** [analyze], with the two orchestrators it calls taken as arguments. *)
Definition analyze_with
    (summ : pystr -> json -> M summary_result)
    (imgc : pystr -> image_part -> M (option pystr))
    (req : request) : M response :=
  if is_json_request req then
    let data := py_or (get_json req) (JObj []) in
    m0 <- lift (py_get data (u"mode")) ;;
    let mode := py_or m0 (JStr (u"summarize")) in
    if negb (json_is_str mode (u"summarize")) then
      ret {| resp_body := error_body (u"Unsupported JSON mode"); resp_status := 400 |}
    else
      t0 <- lift (py_get data (u"text")) ;;
      text <- lift (py_method_str (u"strip") strip (py_or t0 (JStr []))) ;;
      o0 <- lift (py_get data (u"options")) ;;
      let options := py_or o0 (JObj []) in
      if negb (nonempty text) then
        ret {| resp_body := error_body (u"No text provided"); resp_status := 400 |}
      else
        try_except
          (result <- summ text options ;;
           ret {| resp_body := result_json result; resp_status := 200 |})
          (fun e =>
             ret {| resp_body :=
                      JObj [ (u"error", JStr (exn_str e));
                             (u"error_type", JStr (class_name (exn_type e))) ];
                    resp_status := 502 |})
  else
    let mode := dict_get_default (form req) (u"mode") [] in
    if PyStr.eqb mode (u"image_context") then
      match dict_lookup (files req) (u"image") with
      | None =>
          ret {| resp_body := error_body (u"Image file missing"); resp_status := 400 |}
      | Some image_file =>
          let options := request_options req in
          g0 <- lift (py_get options (u"language")) ;;
          let language := py_or g0 (JStr []) in
          let '(part, raw_bytes) := encode_image image_file in
          let size_str := size_string raw_bytes in
          let base_prompt := image_prompt language in
          analysis <- imgc base_prompt part ;;
          let analysis :=
            match analysis with
            | Some (c :: s) => c :: s
            | _ => unavailable
            end in
          ret {| resp_body := image_body analysis size_str options;
                 resp_status := 200 |}
      end
    else
      ret {| resp_body := error_body (u"Unsupported request format or mode");
             resp_status := 400 |}.

Definition analyze : request -> M response := analyze_with summarize image_context.

End App.

(* ================================================================== *)
(** ** The specification's vocabulary *)

(** Spec, section 4.1: the length and tone tables, with the entry an
    unrecognized value resolves to. *)
Definition spec_style (length : pystr) : pystr :=
  if PyStr.eqb length (u"short") then u"2-3 concise sentences"
  else if PyStr.eqb length (u"detailed")
       then u"a detailed yet concise multi-paragraph summary"
       else u"a tight single paragraph".

Definition spec_tone (tone : pystr) : pystr :=
  if PyStr.eqb tone (u"bullet") then u"concise bullet points"
  else if PyStr.eqb tone (u"technical") then u"precise technical language"
       else u"neutral, factual prose".

Definition recognized_lengths : list pystr := [u"short"; u"medium"; u"detailed"].
Definition recognized_tones : list pystr := [u"neutral"; u"bullet"; u"technical"].

Definition recognized (set : list pystr) (s : pystr) : bool :=
  existsb (PyStr.eqb s) set.

(** Spec, section 4.1: preamble, then the style/tone/language clause, then
    the trimmed content. [directive] is the language clause. *)
Definition spec_summary_prompt (style tone directive content : pystr) : pystr :=
  u"You are a careful assistant that preserves facts, figures, and names. "
  ++ u"Summarize the following text as " ++ style ++ u" using " ++ tone
  ++ directive ++ u". "
  ++ u"Highlight critical numbers. If there is uncertainty, mention it briefly."
  ++ nl ++ nl ++ strip content.

Definition spec_image_preamble : pystr :=
  u"You are an assistant describing the provided image. "
  ++ u"Identify notable objects, text, and context succinctly.".

(** Spec, section 6: the success shape
    [{"candidates":[{"content":{"parts":[{"text": "..."}]}}]}]; the first
    candidate's first text part, when the reply has that shape. *)
Definition spec_first_text (data : json) : option pystr :=
  match data with
  | JObj top =>
      match dict_lookup top (u"candidates") with
      | Some (JArr (JObj cand :: _)) =>
          match dict_lookup cand (u"content") with
          | Some (JObj content) =>
              match dict_lookup content (u"parts") with
              | Some (JArr (JObj part :: _)) =>
                  match dict_lookup part (u"text") with
                  | Some (JStr t) => Some t
                  | _ => None
                  end
              | _ => None
              end
          | _ => None
          end
      | _ => None
      end
  | _ => None
  end.

(** What a raw-network call is to return for an HTTP outcome. *)
Definition spec_http_text (out : http_outcome) : option pystr :=
  match out with
  | HttpResponse code (Some data) =>
      if (code =? 200)%Z then option_map strip (spec_first_text data) else None
  | _ => None
  end.

(** Spec, sections 3 and 4.3: the three tiers and their fixed order. *)
Inductive tier := ManagedLibrary | RawPrimary | RawFallback.

Definition spec_tiers : list tier := [ManagedLibrary; RawPrimary; RawFallback].

(** Spec, section 4.4: the tag of the tier that answered. *)
Definition tier_source (t : tier) : pystr :=
  match t with
  | ManagedLibrary => u"genai"
  | RawPrimary => u"http"
  | RawFallback => u"http-fallback"
  end.

Section Orchestration.

Variable E : Env.
Variable cfg : config E.

Definition tier_model (t : tier) : pystr :=
  match t with
  | ManagedLibrary => DEFAULT_MODEL cfg
  | RawPrimary => DEFAULT_MODEL cfg
  | RawFallback => FALLBACK_MODEL
  end.

(** One attempt: the client call of the tier. *)
Definition attempt (t : tier) (prompt : pystr) : M E (option pystr) :=
  match t with
  | ManagedLibrary => _genai_summarize cfg prompt
  | RawPrimary => _http_generate cfg prompt (DEFAULT_MODEL cfg)
  | RawFallback => _http_generate cfg prompt FALLBACK_MODEL
  end.

(** The external call a tier makes, if its client is available. *)
Definition tier_calls (prompt : pystr) (t : tier) : list (event E) :=
  match t with
  | ManagedLibrary =>
      match _genai_model cfg with
      | Some h => [EvGenerate E h (GenText prompt)]
      | None => []
      end
  | RawPrimary =>
      if nonempty (API_KEY cfg)
      then [EvPost E (generate_request cfg prompt (DEFAULT_MODEL cfg))] else []
  | RawFallback =>
      if nonempty (API_KEY cfg)
      then [EvPost E (generate_request cfg prompt FALLBACK_MODEL)] else []
  end.

(** Spec, section 4.3: try the tiers in order, stop at the first non-empty
    text. Returns the winner (if any) and the tiers that were attempted. *)
Fixpoint spec_first_success (ts : list tier) (prompt : pystr)
  : M E (option (tier * pystr) * list tier) :=
  match ts with
  | [] => ret (None, [])
  | t :: ts' =>
      bind (attempt t prompt) (fun r =>
        match r with
        | Some (c :: s) => ret (Some (t, c :: s), [t])
        | _ =>
            bind (spec_first_success ts' prompt) (fun x =>
              ret (fst x, t :: snd x))
        end)
  end.

(** The state once [requests.post] has answered. *)
Definition after_post (req : http_request) (st : state E) : state E :=
  {| world := snd (requests_post E req (world st));
     log := log st ++ [EvPost E req] |}.

(** The state once [generate_content] has answered. *)
Definition after_generate (h : Handle E) (req : gen_request) (st : state E)
  : state E :=
  {| world := snd (generate_content E h req (world st));
     log := log st ++ [EvGenerate E h req] |}.

(** The state a tier's attempt leaves behind. *)
Definition after_attempt (t : tier) (prompt : pystr) (st : state E) : state E :=
  match t with
  | ManagedLibrary =>
      match _genai_model cfg with
      | Some h => after_generate h (GenText prompt) st
      | None => st
      end
  | RawPrimary =>
      if nonempty (API_KEY cfg)
      then after_post (generate_request cfg prompt (DEFAULT_MODEL cfg)) st else st
  | RawFallback =>
      if nonempty (API_KEY cfg)
      then after_post (generate_request cfg prompt FALLBACK_MODEL) st else st
  end.

End Orchestration.

(** [isinstance(v, str)] *)
Definition is_str (v : json) : bool :=
  match v with
  | JStr _ => true
  | _ => false
  end.

(** A [text] attribute that is missing, None or the empty string: the test
    [hasattr(resp, "text") and resp.text] is false. *)
Definition text_unusable (a : attr (option pystr)) : bool :=
  match a with
  | Missing => true
  | Has None => true
  | Has (Some []) => true
  | _ => false
  end.

(** Whitespace only (or empty): what [str.strip] reduces to nothing. *)
Definition all_space (s : pystr) : bool := forallb isspace s.

(* ================================================================== *)
(** ** The diagnostic script (test_api.py)

    The script posts one fixed text to the two models and prints, for each,
    one of three reports. The report is the value returned here; the API key
    and the text are literals of the script and are arguments here. *)

Inductive verdict :=
| Success (text : json)      (* "SUCCESS with <model>!", then the text *)
| ErrorStatus (code : Z)     (* "ERROR with <model>: <status code>" *)
| Failure (e : exn).         (* "EXCEPTION with <model>: <e>" *)

(** [result['candidates'][0]['content']['parts'][0]['text']] *)
Definition result_text (result : json) : outcome json :=
  (a <- py_item_key result (u"candidates") ;;
   b <- py_item_0 a ;;
   c <- py_item_key b (u"content") ;;
   d <- py_item_key c (u"parts") ;;
   e <- py_item_0 d ;;
   py_item_key e (u"text"))%exc.

Definition test_request (api_key text model_url : pystr) : http_request :=
  {| url := model_url;
     headers := [ (u"Content-Type", u"application/json");
                  (u"X-goog-api-key", api_key) ];
     body := JObj [ (u"contents",
                     JArr [ JObj [ (u"parts", JArr [ JObj [ (u"text", JStr text) ] ]) ] ]) ];
     timeout := 30 |}.

Definition url_2_0 : pystr :=
  u"https://generativelanguage.googleapis.com/v1beta/models/gemini-2.0-flash:generateContent".

Definition url_1_5 : pystr :=
  u"https://generativelanguage.googleapis.com/v1beta/models/gemini-1.5-flash:generateContent".

Section Diagnostic.

Variable E : Env.

(** One [try] block of the script. *)
Definition test_model (api_key text model_url : pystr) : M E verdict :=
  try_except
    (bind (call_post (test_request api_key text model_url)) (fun r =>
       let '(code, payload) := r in
       if (code =? 200)%Z then
         bind (lift (response_json payload)) (fun result =>
         bind (lift (result_text result)) (fun text =>
         ret (Success text)))
       else ret (ErrorStatus code)))
    (fun e => ret (Failure e)).

Definition test_api (api_key text : pystr) : M E (verdict * verdict) :=
  bind (test_model api_key text url_2_0) (fun first =>
  bind (test_model api_key text url_1_5) (fun second =>
  ret (first, second))).

End Diagnostic.

(* ================================================================== *)
(** ** A scripted world, for running the program on concrete inputs *)

Module Script.

(** The replies the library and the network will give, in order. *)
Definition replies := (list gen_outcome * list http_outcome)%type.

Definition connection_lost : exn := mk_exn RuntimeError (u"connection lost").

Definition generate (h : pystr) (req : gen_request) (w : replies)
  : gen_outcome * replies :=
  match fst w with
  | o :: rest => (o, (rest, snd w))
  | [] => (GenRaise connection_lost, w)
  end.

Definition post (req : http_request) (w : replies) : http_outcome * replies :=
  match snd w with
  | o :: rest => (o, (fst w, rest))
  | [] => (HttpRaise connection_lost, w)
  end.

(** A library whose handle is the model name it was built for. *)
Definition library (known : pystr -> bool) : genai_lib pystr :=
  {| configure := fun _ => true;
     GenerativeModel := fun name => if known name then Some name else None |}.

Definition b64_char (n : N) : N :=
  (if n <? 26 then n + 65
   else if n <? 52 then n + 71
   else if n <? 62 then n - 4
   else if n =? 62 then 43 else 47)%N.

Fixpoint base64 (l : list byte) : pystr :=
  match l with
  | a :: b :: c :: rest =>
      let n := (Byte.to_N a * 65536 + Byte.to_N b * 256 + Byte.to_N c)%N in
      b64_char (n / 262144) :: b64_char ((n / 4096) mod 64)
      :: b64_char ((n / 64) mod 64) :: b64_char (n mod 64) :: base64 rest
  | [a; b] =>
      let n := (Byte.to_N a * 65536 + Byte.to_N b * 256)%N in
      [b64_char (n / 262144); b64_char ((n / 4096) mod 64);
       b64_char ((n / 64) mod 64); 61%N]
  | [a] =>
      let n := (Byte.to_N a * 65536)%N in
      [b64_char (n / 262144); b64_char ((n / 4096) mod 64); 61%N; 61%N]
  | [] => []
  end.

(** [str(v)] for None, booleans and integers; nothing else is formatted in
    the runs below. *)
Definition str_small (v : json) : pystr :=
  match v with
  | JNull => u"None"
  | JBool true => u"True"
  | JBool false => u"False"
  | JInt z => of_Z z
  | JStr s => s
  | _ => []
  end.

(** The environment: [vars] are the process's environment variables, [lib]
    the installed google.generativeai (if any), [parses] the strings
    [json.loads] accepts, with their values. The strings lowered in the runs
    below are ASCII, and no image decodes. *)
Definition env (vars : dict pystr) (lib : option (genai_lib pystr))
    (parses : dict json) : Env :=
  {| World := replies;
     Handle := pystr;
     generate_content := generate;
     requests_post := post;
     genai := lib;
     getenv := dict_lookup vars;
     str_lower := ascii_lower;
     str_other := str_small;
     json_loads := dict_lookup parses;
     b64encode := base64;
     image_open := fun _ => None |}.

Definition empty_object : dict json := [ (u"{}", JObj []) ].

(** A process started with an API key and a library that knows every model. *)
Definition keyed : Env :=
  env [ (u"GEMINI_API_KEY", u"secret") ] (Some (library (fun _ => true)))
      empty_object.

(** A process started with an API key and no library. *)
Definition keyed_no_library : Env :=
  env [ (u"GEMINI_API_KEY", u"secret") ] None empty_object.

(** A process started with an API key and a library that rejects every
    model but the secondary one. *)
Definition keyed_old_library : Env :=
  env [ (u"GEMINI_API_KEY", u"secret") ]
      (Some (library (fun name => PyStr.eqb name FALLBACK_MODEL))) empty_object.

(** A process started without an API key. *)
Definition keyless : Env :=
  env [] (Some (library (fun _ => true))) empty_object.

Definition start (E : Env) (w : World E) : state E := {| world := w; log := [] |}.

Definition finish (E : Env) (w : World E) (l : list (event E)) : state E :=
  {| world := w; log := l |}.

Definition cfg_keyed : config keyed := module_config keyed.
Definition cfg_no_library : config keyed_no_library := module_config keyed_no_library.
Definition cfg_keyless : config keyless := module_config keyless.

Definition reply_text (s : pystr) : gen_outcome :=
  GenReturn {| resp_text := Has (Some s); resp_candidates := Missing |}.

Definition reply_json (t : pystr) : http_outcome :=
  HttpResponse 200
    (Some (JObj [ (u"candidates",
                   JArr [ JObj [ (u"content",
                     JObj [ (u"parts", JArr [ JObj [ (u"text", JStr t) ] ]) ]) ] ]) ])).

Definition reply_error (code : Z) : http_outcome := HttpResponse code None.

(** The prompt built for the text "hello" and no options. *)
Definition hello_prompt : pystr :=
  spec_summary_prompt (u"a tight single paragraph") (u"neutral, factual prose")
    [] (u"hello").

(** Two failing replies of the network, and the state they are served from. *)
Definition network_down (E : Env) (mk : replies -> World E) : state E :=
  start E (mk ([], [reply_error 500; reply_error 503])).

(** A multipart request whose image part is there and holds no bytes. *)
Definition empty_image_request : request :=
  {| content_type := Some (u"multipart/form-data; boundary=x");
     get_json := JNull;
     form := [ (u"mode", u"image_context") ];
     files := [ (u"image", {| fs_data := []; fs_mimetype := u"image/png" |}) ] |}.

(** A multipart request with a one-pixel-long file and a language option. *)
Definition image_request : request :=
  {| content_type := Some (u"multipart/form-data; boundary=x");
     get_json := JNull;
     form := [ (u"mode", u"image_context"); (u"options", u"{}") ];
     files := [ (u"image", {| fs_data := [x89; x50; x4e; x47];
                              fs_mimetype := u"image/png" |}) ] |}.

(** A JSON request whose text is blank. *)
Definition blank_text_request : request :=
  {| content_type := Some (u"application/json");
     get_json := JObj [ (u"mode", JStr (u"summarize")); (u"text", JStr (u"   ")) ];
     form := [];
     files := [] |}.

(** A multipart image request without the image part. *)
Definition missing_image_request : request :=
  {| content_type := Some (u"multipart/form-data; boundary=x");
     get_json := JNull;
     form := [ (u"mode", u"image_context") ];
     files := [] |}.

(** A library response without [text], whose first candidate holds [t]. *)
Definition candidates_response (t : pystr) : gen_response :=
  {| resp_text := Missing;
     resp_candidates :=
       Has [ {| cand_content :=
                  Has (Some {| content_parts :=
                                 Has [ {| part_text := Has (Some t) |} ] |}) |} ] |}.

(** A JSON request for the text " hello ", with no mode and no options. *)
Definition hello_request : request :=
  {| content_type := Some (u"application/json; charset=utf-8");
     get_json := JObj [ (u"text", JStr (u" hello ")) ];
     form := [];
     files := [] |}.

(** A JSON request whose body is the array [[1]]. *)
Definition array_request : request :=
  {| content_type := Some (u"application/json");
     get_json := JArr [ JInt 1 ];
     form := [];
     files := [] |}.

(** A JSON request with the mode "poem". *)
Definition poem_request : request :=
  {| content_type := Some (u"application/json");
     get_json := JObj [ (u"mode", JStr (u"poem")); (u"text", JStr (u"hello")) ];
     form := [];
     files := [] |}.

(** The record [summarize] returns when the secondary model answers X. *)
Definition fallback_record : summary_result :=
  {| summary := u"X"; meta_model := FALLBACK_MODEL;
     meta_mode := u"summarize"; meta_source := u"http-fallback";
     meta_options := JObj []; tokens_used := JNull |}.

(** The state in which the library raises, the primary model answers 500
    and the secondary one answers " X ". *)
Definition falling_through : state keyed :=
  start keyed ([GenRaise connection_lost], [reply_error 500; reply_json (u" X ")]).

(** The state in which the primary model answers blank text and the
    secondary one answers " X ". *)
Definition blank_then_text : state keyed_no_library :=
  start keyed_no_library ([], [reply_json (u"  "); reply_json (u" X ")]).

End Script.

(* ================================================================== *)
(** ** Properties *)

Lemma pystr_eqb_eq (s t : pystr) : PyStr.eqb s t = true <-> s = t.
Proof.
  revert t; induction s as [|a s IH]; intros [|b t]; simpl;
    try (split; (reflexivity || discriminate)).
  rewrite andb_true_iff, N.eqb_eq, IH.
  split; [intros [-> ->]; reflexivity | intros H; inversion H; auto].
Qed.

Lemma pystr_eqb_refl (s : pystr) : PyStr.eqb s s = true.
Proof. apply pystr_eqb_eq; reflexivity. Qed.

(** The subscript chain of [_http_generate] succeeds exactly on the shape
    of the specification. *)
Lemma extract_text_shape (data : json) :
  match extract_text data with
  | Ok t => option_map strip (spec_first_text data) = Some t
  | Exc _ => spec_first_text data = None
  end.
Proof.
  unfold extract_text, spec_first_text.
  destruct data as [| | | | |l|top]; simpl; try reflexivity.
  destruct (dict_lookup top (u"candidates")) as [a|]; simpl; [|reflexivity].
  destruct a as [| | | |[|c s]|[|b l]|d]; simpl; try reflexivity.
  destruct b as [| | | | |l'|cand]; simpl; try reflexivity.
  destruct (dict_lookup cand (u"content")) as [c|]; simpl; [|reflexivity].
  destruct c as [| | | | |l'|content]; simpl; try reflexivity.
  destruct (dict_lookup content (u"parts")) as [d|]; simpl; [|reflexivity].
  destruct d as [| | | |[|c s]|[|e l']|d]; simpl; try reflexivity.
  destruct e as [| | | | |l''|part]; simpl; try reflexivity.
  destruct (dict_lookup part (u"text")) as [f|]; simpl; [|reflexivity].
  destruct f; simpl; reflexivity.
Qed.

Section Properties.

Variable E : Env.
Variable cfg : config E.

Lemma http_generate_keyed (prompt model_name : pystr) (st : state E) :
  nonempty (API_KEY cfg) = true ->
  _http_generate cfg prompt model_name st =
    (Ok (spec_http_text
           (fst (requests_post E (generate_request cfg prompt model_name) (world st)))),
     after_post (generate_request cfg prompt model_name) st).
Proof.
  intros Hkey. unfold _http_generate, after_post. rewrite Hkey. simpl.
  unfold try_except, bind, call_post.
  destruct (requests_post E _ (world st)) as [out w]. simpl.
  destruct out as [e|code payload]; simpl; [reflexivity|].
  destruct (code =? 200)%Z; simpl; [|destruct payload; reflexivity].
  destruct payload as [data|]; simpl; [|reflexivity].
  unfold lift. pose proof (extract_text_shape data) as H.
  destruct (extract_text data); simpl; rewrite H; reflexivity.
Qed.

Lemma http_generate_keyless (prompt model_name : pystr) (st : state E) :
  nonempty (API_KEY cfg) = false ->
  _http_generate cfg prompt model_name st = (Ok None, st).
Proof. intros Hkey. unfold _http_generate. rewrite Hkey. reflexivity. Qed.

Lemma attempt_log (t : tier) (prompt : pystr) (st : state E) :
  log (after_attempt cfg t prompt st) = log st ++ tier_calls cfg prompt t.
Proof.
  destruct t; simpl.
  - destruct (_genai_model cfg); simpl; [reflexivity | now rewrite app_nil_r].
  - destruct (nonempty (API_KEY cfg)); simpl; [reflexivity | now rewrite app_nil_r].
  - destruct (nonempty (API_KEY cfg)); simpl; [reflexivity | now rewrite app_nil_r].
Qed.

Lemma http_generate_returns (prompt model_name : pystr) (st : state E) :
  exists r,
    _http_generate cfg prompt model_name st =
      (Ok r, if nonempty (API_KEY cfg)
             then after_post (generate_request cfg prompt model_name) st else st).
Proof.
  destruct (nonempty (API_KEY cfg)) eqn:Hkey.
  - eexists. apply http_generate_keyed; assumption.
  - eexists. apply http_generate_keyless; assumption.
Qed.

(** The body of a [try] around one [generate_content] call never lets an
    exception out. *)
Lemma guarded_generate {A} (h : Handle E) (req : gen_request)
    (k : gen_response -> M E (option A)) (st : state E) :
  (forall resp st1, exists o, k resp st1 = (o, st1)) ->
  exists r,
    try_except (bind (call_generate h req) k) (fun _ => ret None) st =
      (Ok r, after_generate h req st).
Proof.
  intros Hk. unfold try_except, bind, call_generate, after_generate.
  destruct (generate_content E h req (world st)) as [out w]. simpl.
  destruct out as [e|resp]; simpl; [eexists; reflexivity|].
  destruct (Hk resp {| world := w; log := log st ++ [EvGenerate E h req] |})
    as [o Ho].
  rewrite Ho. destruct o; eexists; reflexivity.
Qed.

Lemma genai_summarize_returns (prompt : pystr) (st : state E) :
  exists r,
    _genai_summarize cfg prompt st =
      (Ok r, after_attempt cfg ManagedLibrary prompt st).
Proof.
  unfold _genai_summarize. simpl. destruct (_genai_model cfg) as [h|].
  - apply guarded_generate. intros resp st1. unfold bind, lift.
    destruct (text_if_present _ _) as [[res|]|e]; eexists; reflexivity.
  - eexists; reflexivity.
Qed.

Lemma image_context_returns (prompt : pystr) (part : image_part) (st : state E) :
  exists r,
    image_context cfg prompt part st =
      (Ok r, match _genai_model cfg with
             | Some h => after_generate h (GenVision prompt part) st
             | None => st
             end).
Proof.
  unfold image_context. destruct (_genai_model cfg) as [h|].
  - apply guarded_generate. intros resp st1. unfold bind, lift.
    destruct (text_if_present _ _) as [[res|]|e]; eexists; reflexivity.
  - eexists; reflexivity.
Qed.

Lemma attempt_returns (t : tier) (prompt : pystr) (st : state E) :
  exists r, attempt cfg t prompt st = (Ok r, after_attempt cfg t prompt st).
Proof.
  destruct t; simpl.
  - apply genai_summarize_returns.
  - apply http_generate_returns.
  - apply http_generate_returns.
Qed.

(** [summarize] in terms of what its three client calls return. *)
Lemma summarize_cases (text : pystr) (options : json) (prompt : pystr)
    (r1 r2 r3 : option pystr) (st s1 s2 s3 : state E) :
  build_summary_prompt E text options = Ok prompt ->
  attempt cfg ManagedLibrary prompt st = (Ok r1, s1) ->
  attempt cfg RawPrimary prompt s1 = (Ok r2, s2) ->
  attempt cfg RawFallback prompt s2 = (Ok r3, s3) ->
  summarize cfg text options st =
    match r1, r2, r3 with
    | Some (c :: s), _, _ =>
        (Ok {| summary := c :: s; meta_model := DEFAULT_MODEL cfg;
               meta_mode := u"summarize"; meta_source := u"genai";
               meta_options := options; tokens_used := JNull |}, s1)
    | _, Some (c :: s), _ =>
        (Ok {| summary := c :: s; meta_model := DEFAULT_MODEL cfg;
               meta_mode := u"summarize"; meta_source := u"http";
               meta_options := options; tokens_used := JNull |}, s2)
    | _, _, Some (c :: s) =>
        (Ok {| summary := c :: s; meta_model := FALLBACK_MODEL;
               meta_mode := u"summarize"; meta_source := u"http-fallback";
               meta_options := options; tokens_used := JNull |}, s3)
    | _, _, _ =>
        (Exc (mk_exn RuntimeError (u"All summarization methods failed")), s3)
    end.
Proof.
  simpl. intros Hp H1 H2 H3.
  unfold summarize, bind, lift, ret, raise. rewrite Hp, H1.
  destruct r1 as [[|c1 t1]|]; simpl; try reflexivity;
    rewrite H2; (destruct r2 as [[|c2 t2]|]; simpl; try reflexivity);
    rewrite H3; destruct r3 as [[|c3 t3]|]; reflexivity.
Qed.

(** The specification's search in the same terms. *)
Lemma first_success_cases (prompt : pystr)
    (r1 r2 r3 : option pystr) (st s1 s2 s3 : state E) :
  attempt cfg ManagedLibrary prompt st = (Ok r1, s1) ->
  attempt cfg RawPrimary prompt s1 = (Ok r2, s2) ->
  attempt cfg RawFallback prompt s2 = (Ok r3, s3) ->
  spec_first_success cfg spec_tiers prompt st =
    match r1, r2, r3 with
    | Some (c :: s), _, _ =>
        (Ok (Some (ManagedLibrary, c :: s), [ManagedLibrary]), s1)
    | _, Some (c :: s), _ =>
        (Ok (Some (RawPrimary, c :: s), [ManagedLibrary; RawPrimary]), s2)
    | _, _, Some (c :: s) =>
        (Ok (Some (RawFallback, c :: s), spec_tiers), s3)
    | _, _, _ => (Ok (None, spec_tiers), s3)
    end.
Proof.
  intros H1 H2 H3.
  unfold spec_tiers, spec_first_success, bind, ret. rewrite H1.
  destruct r1 as [[|c1 t1]|]; try reflexivity;
    rewrite H2; (destruct r2 as [[|c2 t2]|]; try reflexivity);
    rewrite H3; destruct r3 as [[|c3 t3]|]; reflexivity.
Qed.

(** C1. [summarize] runs the tiers in the order managed library, raw network
    with the primary model, raw network with the secondary model: it agrees
    with the specification's first-success search over [spec_tiers]. The
    tiers tried are an initial part of that list ending at the winner, the
    external calls logged are exactly theirs in that order (so none follows a
    success), and the text returned is the winner's non-empty text. When
    building the prompt raises, no attempt is made. *)
Theorem summarize_first_success (text : pystr) (options : json) (st : state E) :
  match build_summary_prompt E text options with
  | Exc e => summarize cfg text options st = (Exc e, st)
  | Ok prompt =>
      exists winner tried st',
        spec_first_success cfg spec_tiers prompt st = (Ok (winner, tried), st') /\
        log st' = log st ++ flat_map (tier_calls cfg prompt) tried /\
        match winner with
        | Some (t, s) =>
            (exists before rest,
                tried = before ++ [t] /\ spec_tiers = tried ++ rest) /\
            s <> [] /\
            exists r, summarize cfg text options st = (Ok r, st') /\ summary r = s
        | None =>
            tried = spec_tiers /\
            exists e, summarize cfg text options st = (Exc e, st')
        end
  end.
Proof.
  destruct (build_summary_prompt E text options) as [prompt|e] eqn:Hp.
  2:{ unfold summarize, bind, lift. rewrite Hp. reflexivity. }
  destruct (attempt_returns ManagedLibrary prompt st) as [r1 H1].
  pose proof (attempt_log ManagedLibrary prompt st) as L1.
  set (s1 := after_attempt cfg ManagedLibrary prompt st) in *.
  destruct (attempt_returns RawPrimary prompt s1) as [r2 H2].
  pose proof (attempt_log RawPrimary prompt s1) as L2.
  set (s2 := after_attempt cfg RawPrimary prompt s1) in *.
  destruct (attempt_returns RawFallback prompt s2) as [r3 H3].
  pose proof (attempt_log RawFallback prompt s2) as L3.
  set (s3 := after_attempt cfg RawFallback prompt s2) in *.
  erewrite summarize_cases; [| exact Hp | exact H1 | exact H2 | exact H3].
  erewrite first_success_cases; [| exact H1 | exact H2 | exact H3].
  assert (L12 : log s2 = log st ++ flat_map (tier_calls cfg prompt)
                                    [ManagedLibrary; RawPrimary]).
  { simpl. rewrite app_nil_r, L2, L1, app_assoc. reflexivity. }
  assert (L123 : log s3 = log st ++ flat_map (tier_calls cfg prompt) spec_tiers).
  { simpl. rewrite app_nil_r, L3, L2, L1, !app_assoc. reflexivity. }
  assert (L1' : log s1 = log st ++ flat_map (tier_calls cfg prompt) [ManagedLibrary]).
  { simpl. rewrite app_nil_r. exact L1. }
  destruct r1 as [[|c1 t1]|].
  2:{ do 3 eexists. split; [reflexivity|]. split; [exact L1'|].
      split; [exists [], [RawPrimary; RawFallback]; split; reflexivity|].
      split; [discriminate|]. eexists; split; reflexivity. }
  all: destruct r2 as [[|c2 t2]|].
  all: try (do 3 eexists; split; [reflexivity|]; split; [exact L12|];
            split; [exists [ManagedLibrary], [RawFallback]; split; reflexivity|];
            split; [discriminate|]; eexists; split; reflexivity).
  all: destruct r3 as [[|c3 t3]|].
  all: try (do 3 eexists; split; [reflexivity|]; split; [exact L123|];
            split; [exists [ManagedLibrary; RawPrimary], []; split; reflexivity|];
            split; [discriminate|]; eexists; split; reflexivity).
  all: do 3 eexists; split; [reflexivity|]; split; [exact L123|];
       split; [reflexivity|]; eexists; reflexivity.
Qed.

(** C2, as the code has it. When the managed-library attempt and both
    raw-network attempts come back absent (or empty), [summarize] produces no
    result record: it raises RuntimeError once the secondary model's attempt
    has returned. The error carries the fixed message
    "All summarization methods failed", which names no model. *)
Theorem summarize_exhaustion (text : pystr) (options : json) (prompt : pystr)
    (r1 r2 r3 : option pystr) (st s1 s2 s3 : state E) :
  build_summary_prompt E text options = Ok prompt ->
  _genai_summarize cfg prompt st = (Ok r1, s1) -> opt_truthy r1 = false ->
  _http_generate cfg prompt (DEFAULT_MODEL cfg) s1 = (Ok r2, s2) ->
  opt_truthy r2 = false ->
  _http_generate cfg prompt FALLBACK_MODEL s2 = (Ok r3, s3) ->
  opt_truthy r3 = false ->
  summarize cfg text options st =
    (Exc (mk_exn RuntimeError (u"All summarization methods failed")), s3)
  /\ contains (u"All summarization methods failed") FALLBACK_MODEL = false.
Proof.
  intros Hp H1 F1 H2 F2 H3 F3. split; [|reflexivity].
  erewrite summarize_cases; [| exact Hp | exact H1 | exact H2 | exact H3].
  destruct r1 as [[|? ?]|]; try discriminate F1;
    destruct r2 as [[|? ?]|]; try discriminate F2;
    destruct r3 as [[|? ?]|]; try discriminate F3; reflexivity.
Qed.

(** What a returned record says of its origin. Its text is the non-empty
    text of the winning tier of the first-success search, its source tag is
    that tier's, and its model name is the one [summarize] assigns to the
    tier ([tier_model]: the preferred model for the library and the primary
    tier, the secondary model for the fallback tier). With no library handle,
    an absent primary reply and a secondary reply X, the record carries X,
    the secondary model's name and the tag http-fallback. *)
Theorem summarize_identifies_tier (text : pystr) (options : json) (st : state E) :
  (forall r st',
      summarize cfg text options st = (Ok r, st') ->
      exists prompt t tried,
        build_summary_prompt E text options = Ok prompt /\
        spec_first_success cfg spec_tiers prompt st
          = (Ok (Some (t, summary r), tried), st') /\
        meta_source r = tier_source t /\
        meta_model r = tier_model cfg t) /\
  (forall prompt r2 X s2 s3,
      build_summary_prompt E text options = Ok prompt ->
      _genai_model cfg = None ->
      _http_generate cfg prompt (DEFAULT_MODEL cfg) st = (Ok r2, s2) ->
      opt_truthy r2 = false ->
      _http_generate cfg prompt FALLBACK_MODEL s2 = (Ok (Some X), s3) ->
      X <> [] ->
      exists r,
        summarize cfg text options st = (Ok r, s3) /\
        summary r = X /\
        meta_model r = FALLBACK_MODEL /\
        meta_source r = u"http-fallback").
Proof.
  split.
  - intros r st' Hs.
    destruct (build_summary_prompt E text options) as [prompt|e] eqn:Hp.
    2:{ unfold summarize, bind, lift in Hs. rewrite Hp in Hs. discriminate. }
    destruct (attempt_returns ManagedLibrary prompt st) as [r1 H1].
    set (s1 := after_attempt cfg ManagedLibrary prompt st) in *.
    destruct (attempt_returns RawPrimary prompt s1) as [r2 H2].
    set (s2 := after_attempt cfg RawPrimary prompt s1) in *.
    destruct (attempt_returns RawFallback prompt s2) as [r3 H3].
    set (s3 := after_attempt cfg RawFallback prompt s2) in *.
    erewrite summarize_cases in Hs; [| exact Hp | exact H1 | exact H2 | exact H3].
    exists prompt.
    erewrite first_success_cases; [| exact H1 | exact H2 | exact H3].
    destruct r1 as [[|c1 t1]|]; [| inversion Hs; subst; do 2 eexists; auto |];
      (destruct r2 as [[|c2 t2]|]; [| inversion Hs; subst; do 2 eexists; auto |]);
      (destruct r3 as [[|c3 t3]|]; [| inversion Hs; subst; do 2 eexists; auto |]);
      discriminate Hs.
  - intros prompt r2 X s2 s3 Hp Hnone H2 F2 H3 HX.
    assert (H1 : attempt cfg ManagedLibrary prompt st = (Ok None, st)).
    { simpl. unfold _genai_summarize. rewrite Hnone. reflexivity. }
    erewrite summarize_cases; [| exact Hp | exact H1 | exact H2 | exact H3].
    destruct X as [|c X]; [congruence|].
    destruct r2 as [[|? ?]|]; try discriminate F2;
      eexists; repeat split; reflexivity.
Qed.


(** The two rejections made on empty input. A JSON summarization request
    whose text is empty after trimming is answered 400 "No text provided",
    and an image request without the image part is answered 400
    "Image file missing"; in both cases the answer does not depend on the
    orchestrators and the state is untouched, so neither [summarize] nor
    [image_context] runs. *)
Theorem empty_request_rejected (req : request) :
  (forall d t,
      is_json_request req = true ->
      py_or (get_json req) (JObj []) = JObj d ->
      json_is_str (py_or (dict_get_default d (u"mode") JNull) (JStr (u"summarize")))
                  (u"summarize") = true ->
      py_or (dict_get_default d (u"text") JNull) (JStr []) = JStr t ->
      strip t = [] ->
      forall summ imgc st,
        analyze_with cfg summ imgc req st =
          (Ok {| resp_body := error_body (u"No text provided");
                 resp_status := 400 |}, st)) /\
  (is_json_request req = false ->
   dict_get_default (form req) (u"mode") [] = u"image_context" ->
   dict_lookup (files req) (u"image") = None ->
   forall summ imgc st,
     analyze_with cfg summ imgc req st =
       (Ok {| resp_body := error_body (u"Image file missing");
              resp_status := 400 |}, st)).
Proof.
  split.
  - intros d t Hjson Hdata Hmode Htext Hblank summ imgc st.
    unfold analyze_with. rewrite Hjson, Hdata. simpl.
    unfold bind, lift. simpl. rewrite Hmode. simpl. rewrite Htext. simpl.
    rewrite Hblank. reflexivity.
  - intros Hjson Hmode Hfile summ imgc st.
    unfold analyze_with. rewrite Hjson, Hmode, pystr_eqb_refl, Hfile.
    reflexivity.
Qed.

End Properties.

Lemma pystr_eqb_sym (s t : pystr) : PyStr.eqb s t = PyStr.eqb t s.
Proof.
  destruct (PyStr.eqb s t) eqn:H1, (PyStr.eqb t s) eqn:H2; try reflexivity.
  - apply pystr_eqb_eq in H1. subst. rewrite pystr_eqb_refl in H2. discriminate.
  - apply pystr_eqb_eq in H2. subst. rewrite pystr_eqb_refl in H1. discriminate.
Qed.

(** The two dictionary reads of the prompt builder are the tables of the
    specification. *)
Lemma style_map_get (x : pystr) :
  dict_get_default style_map x (u"a tight single paragraph") = spec_style x.
Proof.
  unfold dict_get_default, style_map, dict_lookup, spec_style.
  rewrite (pystr_eqb_sym (u"short") x), (pystr_eqb_sym (u"medium") x),
    (pystr_eqb_sym (u"detailed") x).
  destruct (PyStr.eqb x (u"short")) eqn:H1; [reflexivity|].
  destruct (PyStr.eqb x (u"medium")) eqn:H2.
  - apply pystr_eqb_eq in H2. subst x. reflexivity.
  - destruct (PyStr.eqb x (u"detailed")); reflexivity.
Qed.

Lemma tone_map_get (x : pystr) :
  dict_get_default tone_map x (u"neutral, factual prose") = spec_tone x.
Proof.
  unfold dict_get_default, tone_map, dict_lookup, spec_tone.
  rewrite (pystr_eqb_sym (u"neutral") x), (pystr_eqb_sym (u"bullet") x),
    (pystr_eqb_sym (u"technical") x).
  destruct (PyStr.eqb x (u"neutral")) eqn:H1.
  - apply pystr_eqb_eq in H1. subst x. reflexivity.
  - destruct (PyStr.eqb x (u"bullet")); [reflexivity|].
    destruct (PyStr.eqb x (u"technical")); reflexivity.
Qed.

Lemma spec_style_unrecognized (x : pystr) :
  recognized recognized_lengths x = false ->
  spec_style x = u"a tight single paragraph".
Proof.
  unfold recognized, recognized_lengths, existsb, spec_style.
  destruct (PyStr.eqb x (u"short")); [discriminate|].
  destruct (PyStr.eqb x (u"medium")); [discriminate|].
  destruct (PyStr.eqb x (u"detailed")); [discriminate|reflexivity].
Qed.

Lemma spec_tone_unrecognized (x : pystr) :
  recognized recognized_tones x = false ->
  spec_tone x = u"neutral, factual prose".
Proof.
  unfold recognized, recognized_tones, existsb, spec_tone.
  destruct (PyStr.eqb x (u"neutral")); [discriminate|].
  destruct (PyStr.eqb x (u"bullet")); [discriminate|].
  destruct (PyStr.eqb x (u"technical")); [discriminate|reflexivity].
Qed.

Lemma dict_lookup_set_same {V} (d : dict V) (k : pystr) (v : V) :
  dict_lookup (dict_set d k v) k = Some v.
Proof. unfold dict_set. simpl. rewrite pystr_eqb_refl. reflexivity. Qed.

Lemma dict_lookup_set_other {V} (d : dict V) (k k' : pystr) (v : V) :
  PyStr.eqb k k' = false ->
  dict_lookup (dict_set d k v) k' = dict_lookup d k'.
Proof. intros H. unfold dict_set. simpl. rewrite H. reflexivity. Qed.

Lemma ascii_lower_idem (s : pystr) : ascii_lower (ascii_lower s) = ascii_lower s.
Proof.
  unfold ascii_lower. rewrite map_map. apply map_ext. intros c.
  unfold lower_char.
  destruct ((65 <=? c)%N && (c <=? 90)%N) eqn:H1.
  - apply andb_true_iff in H1. destruct H1 as [Ha Hb].
    apply N.leb_le in Ha, Hb.
    assert (H2 : ((c + 32 <=? 90) = false)%N) by (apply N.leb_gt; lia).
    rewrite H2, andb_false_r. reflexivity.
  - rewrite H1. reflexivity.
Qed.

Section PromptProperties.

Variable E : Env.

(** The prompt builder on a dictionary, in closed form. *)
Lemma build_summary_prompt_dict (text : pystr) (d : dict json) :
  build_summary_prompt E text (JObj d) =
    obind (py_method_str (u"lower") (str_lower E)
             (py_or (dict_get_default d (u"length") JNull) (JStr (u"medium"))))
      (fun length =>
         obind (py_method_str (u"lower") (str_lower E)
                  (py_or (dict_get_default d (u"tone") JNull) (JStr (u"neutral"))))
           (fun tone =>
              Ok (spec_summary_prompt (spec_style length) (spec_tone tone)
                    (language_part E
                       (py_or (dict_get_default d (u"language") JNull) (JStr [])))
                    text))).
Proof.
  unfold build_summary_prompt, py_get, obind at 1.
  destruct (py_method_str _ _ (py_or (dict_get_default d (u"length") JNull) _))
    as [length|e]; [|reflexivity].
  cbn [obind].
  destruct (py_method_str _ _ (py_or (dict_get_default d (u"tone") JNull) _))
    as [tone|e]; [|reflexivity].
  cbn [obind].
  change (dict_item style_map (u"medium")) with (Ok (u"a tight single paragraph")).
  change (dict_item tone_map (u"neutral")) with (Ok (u"neutral, factual prose")).
  cbn [obind]. rewrite style_map_get, tone_map_get. reflexivity.
Qed.

(** What is assumed of [str.lower]: on ASCII text it lowers A-Z and nothing
    else, and lowering twice is lowering once. *)
Hypothesis lower_ascii :
  forall s, is_ascii s = true -> str_lower E s = ascii_lower s.
Hypothesis lower_idem :
  forall s, str_lower E (str_lower E s) = str_lower E s.

Lemma lower_medium : str_lower E (u"medium") = u"medium".
Proof. rewrite lower_ascii; reflexivity. Qed.

Lemma lower_neutral : str_lower E (u"neutral") = u"neutral".
Proof. rewrite lower_ascii; reflexivity. Qed.

Lemma lower_empty : str_lower E [] = [].
Proof. rewrite lower_ascii; reflexivity. Qed.

(** The length entry chosen for a string value [L] of the option. *)
Lemma length_entry (L : pystr) :
  obind (py_method_str (u"lower") (str_lower E)
           (py_or (JStr L) (JStr (u"medium"))))
        (fun length => Ok (spec_style length))
  = Ok (spec_style (str_lower E L)).
Proof.
  destruct L as [|c L]; unfold py_or;
    cbn [truthy PyStr.eqb negb py_method_str obind].
  - rewrite lower_medium, lower_empty. reflexivity.
  - reflexivity.
Qed.

Lemma tone_entry (T : pystr) :
  obind (py_method_str (u"lower") (str_lower E)
           (py_or (JStr T) (JStr (u"neutral"))))
        (fun tone => Ok (spec_tone tone))
  = Ok (spec_tone (str_lower E T)).
Proof.
  destruct T as [|c T]; unfold py_or;
    cbn [truthy PyStr.eqb negb py_method_str obind].
  - rewrite lower_neutral, lower_empty. reflexivity.
  - reflexivity.
Qed.

(** The prompt for a dictionary whose length and tone are strings. *)
Lemma build_summary_prompt_strings (text : pystr) (d : dict json) (L T : pystr) :
  dict_lookup d (u"length") = Some (JStr L) ->
  dict_lookup d (u"tone") = Some (JStr T) ->
  build_summary_prompt E text (JObj d) =
    Ok (spec_summary_prompt (spec_style (str_lower E L)) (spec_tone (str_lower E T))
          (language_part E (py_or (dict_get_default d (u"language") JNull) (JStr [])))
          text).
Proof.
  intros HL HT. rewrite build_summary_prompt_dict.
  unfold dict_get_default at 1 2. rewrite HL, HT.
  pose proof (length_entry L) as EL. pose proof (tone_entry T) as ET.
  destruct (py_method_str _ _ (py_or (JStr L) _)) as [l|e]; [|discriminate EL].
  destruct (py_method_str _ _ (py_or (JStr T) _)) as [t|e]; [|discriminate ET].
  cbn [obind] in EL, ET |- *. congruence.
Qed.

(** The prompt for a dictionary whose effective length and tone (after the
    [or] defaults) are the strings [L] and [T]. *)
Lemma build_summary_prompt_effective (text : pystr) (d : dict json) (L T : pystr) :
  py_or (dict_get_default d (u"length") JNull) (JStr (u"medium")) = JStr L ->
  py_or (dict_get_default d (u"tone") JNull) (JStr (u"neutral")) = JStr T ->
  build_summary_prompt E text (JObj d) =
    Ok (spec_summary_prompt (spec_style (str_lower E L)) (spec_tone (str_lower E T))
          (language_part E (py_or (dict_get_default d (u"language") JNull) (JStr [])))
          text).
Proof.
  intros HL HT. rewrite build_summary_prompt_dict, HL, HT. reflexivity.
Qed.

(** C5, as the code has it. A length given as a string whose lowercased form
    is none of short, medium, detailed yields exactly the prompt (or the
    exception) that length = medium yields; a tone given as a string whose
    lowercased form is none of neutral, bullet, technical yields exactly what
    tone = neutral yields. *)
Theorem unrecognized_resolves_to_default (text : pystr) (d : dict json)
    (L T : pystr) :
  (recognized recognized_lengths (str_lower E L) = false ->
   build_summary_prompt E text (JObj (dict_set d (u"length") (JStr L))) =
   build_summary_prompt E text (JObj (dict_set d (u"length") (JStr (u"medium"))))) /\
  (recognized recognized_tones (str_lower E T) = false ->
   build_summary_prompt E text (JObj (dict_set d (u"tone") (JStr T))) =
   build_summary_prompt E text (JObj (dict_set d (u"tone") (JStr (u"neutral"))))).
Proof.
  split; intros Hout; rewrite !build_summary_prompt_dict; unfold dict_get_default;
    rewrite !dict_lookup_set_same;
    rewrite !dict_lookup_set_other by reflexivity.
  - pose proof (length_entry L) as EL.
    pose proof (length_entry (u"medium")) as EM.
    rewrite lower_medium in EM. rewrite (spec_style_unrecognized _ Hout) in EL.
    change (spec_style (u"medium")) with (u"a tight single paragraph") in EM.
    destruct (py_method_str _ _ (py_or (JStr L) _)) as [l|e]; [|discriminate EL].
    destruct (py_method_str _ _ (py_or (JStr (u"medium")) _)) as [m|e];
      [|discriminate EM].
    cbn [obind] in EL, EM |- *.
    replace (spec_style l) with (spec_style m) by congruence. reflexivity.
  - pose proof (tone_entry T) as ET.
    pose proof (tone_entry (u"neutral")) as EN.
    rewrite lower_neutral in EN. rewrite (spec_tone_unrecognized _ Hout) in ET.
    change (spec_tone (u"neutral")) with (u"neutral, factual prose") in EN.
    destruct (py_method_str _ _ (py_or (JStr T) _)) as [t|e]; [|discriminate ET].
    destruct (py_method_str _ _ (py_or (JStr (u"neutral")) _)) as [n|e];
      [|discriminate EN].
    cbn [obind] in ET, EN |- *.
    replace (spec_tone t) with (spec_tone n) by congruence. reflexivity.
Qed.

(** C6. For options whose length and tone are strings (or left to their
    defaults): when the language option is non-empty, the summary prompt has
    the clause " in <language>" right after the tone and the image prompt
    ends with " Respond in <language>."; when it is empty or absent, the
    summary prompt has nothing between the tone and the full stop and the
    image prompt is the bare preamble. *)
Theorem language_directive (text : pystr) (d : dict json) (L T : pystr) :
  py_or (dict_get_default d (u"length") JNull) (JStr (u"medium")) = JStr L ->
  py_or (dict_get_default d (u"tone") JNull) (JStr (u"neutral")) = JStr T ->
  let language := py_or (dict_get_default d (u"language") JNull) (JStr []) in
  let style := spec_style (str_lower E L) in
  let tone := spec_tone (str_lower E T) in
  (truthy language = true ->
   build_summary_prompt E text (JObj d) =
     Ok (spec_summary_prompt style tone (u" in " ++ py_format E language) text) /\
   image_prompt E language =
     spec_image_preamble ++ u" Respond in " ++ py_format E language ++ u".") /\
  (truthy language = false ->
   build_summary_prompt E text (JObj d) =
     Ok (spec_summary_prompt style tone [] text) /\
   image_prompt E language = spec_image_preamble).
Proof.
  intros HL HT language style tone.
  rewrite (build_summary_prompt_effective text d HL HT).
  fold language. unfold language_part, image_prompt.
  split; intros Hl; rewrite Hl; split; reflexivity.
Qed.

(** C9. The prompt built for length [L] and tone [T] is exactly the prompt
    built for their lowercased forms. *)
Theorem length_tone_case_insensitive (text : pystr) (d : dict json)
    (L T : pystr) :
  build_summary_prompt E text
    (JObj (dict_set (dict_set d (u"length") (JStr L)) (u"tone") (JStr T))) =
  build_summary_prompt E text
    (JObj (dict_set (dict_set d (u"length") (JStr (str_lower E L)))
             (u"tone") (JStr (str_lower E T)))).
Proof.
  rewrite (@build_summary_prompt_strings text _ L T);
    [| rewrite dict_lookup_set_other by reflexivity; apply dict_lookup_set_same
     | apply dict_lookup_set_same ].
  rewrite (@build_summary_prompt_strings text _ (str_lower E L) (str_lower E T));
    [| rewrite dict_lookup_set_other by reflexivity; apply dict_lookup_set_same
     | apply dict_lookup_set_same ].
  rewrite !lower_idem. unfold dict_get_default.
  rewrite !dict_lookup_set_other by reflexivity. reflexivity.
Qed.

End PromptProperties.

Section ClientProperties.

Variable E : Env.
Variable cfg : config E.

(** C7. With an API key configured, a raw-network call posts once and then:
    on status 200 with a body of the expected shape it returns the first
    candidate's first text part, trimmed; on any other status, on a network
    error, on a body that is not JSON or not of that shape it returns absent.
    In no case does it raise. *)
Theorem http_generate_text_or_absent (prompt model_name : pystr) (st : state E) :
  nonempty (API_KEY cfg) = true ->
  let req := generate_request cfg prompt model_name in
  let out := fst (requests_post E req (world st)) in
  let returns r :=
    _http_generate cfg prompt model_name st = (Ok r, after_post req st) in
  (forall data t,
      out = HttpResponse 200 (Some data) -> spec_first_text data = Some t ->
      returns (Some (strip t))) /\
  (forall code payload,
      out = HttpResponse code payload -> code <> 200%Z -> returns None) /\
  (forall e, out = HttpRaise e -> returns None) /\
  (forall payload,
      out = HttpResponse 200 payload ->
      (forall data, payload = Some data -> spec_first_text data = None) ->
      returns None).
Proof.
  intros Hkey req out returns. unfold returns.
  rewrite (http_generate_keyed cfg prompt model_name st Hkey).
  fold req. fold out. repeat split.
  - intros data t Hout Hshape. rewrite Hout. simpl. rewrite Hshape. reflexivity.
  - intros code payload Hout Hcode. rewrite Hout. simpl.
    destruct payload; [|reflexivity].
    destruct (Z.eqb_spec code 200); [contradiction|reflexivity].
  - intros e Hout. rewrite Hout. reflexivity.
  - intros payload Hout Hshape. rewrite Hout. simpl.
    destruct payload as [data|]; [|reflexivity].
    rewrite (Hshape data eq_refl). reflexivity.
Qed.

(** C10. With an empty API key, every raw-network call returns absent and
    leaves the state as it was: nothing is posted. Both raw-network tiers
    therefore answer absent for every prompt, in every state. *)
Theorem keyless_http_generate_absent :
  API_KEY cfg = [] ->
  (forall prompt model_name st,
      _http_generate cfg prompt model_name st = (Ok None, st)) /\
  (forall prompt st,
      attempt cfg RawPrimary prompt st = (Ok None, st) /\
      attempt cfg RawFallback prompt st = (Ok None, st) /\
      tier_calls cfg prompt RawPrimary = [] /\
      tier_calls cfg prompt RawFallback = []).
Proof.
  intros Hkey.
  assert (Hne : nonempty (API_KEY cfg) = false) by (rewrite Hkey; reflexivity).
  split.
  - intros. apply http_generate_keyless. exact Hne.
  - intros. simpl. rewrite Hne.
    repeat split; try reflexivity; apply http_generate_keyless; exact Hne.
Qed.

End ClientProperties.

(* ================================================================== *)
(** ** Runs on concrete inputs *)

Lemma ascii_lower_on_ascii :
  forall s, is_ascii s = true -> str_lower Script.keyed s = ascii_lower s.
Proof. intros s _. reflexivity. Defined.

Lemma ascii_lower_twice :
  forall s, str_lower Script.keyed (str_lower Script.keyed s)
            = str_lower Script.keyed s.
Proof. intros s. apply ascii_lower_idem. Defined.

(** Start-up: without a key there is no handle; when the library rejects
    the preferred model the handle is built for the secondary one. *)
Example module_config_keyless :
  API_KEY Script.cfg_keyless = [] /\ _genai_model Script.cfg_keyless = None.
Proof. split; reflexivity. Qed.

Example module_config_old_library :
  _genai_model (module_config Script.keyed_old_library) = Some FALLBACK_MODEL /\
  DEFAULT_MODEL (module_config Script.keyed_old_library) = u"gemini-2.0-flash".
Proof. split; reflexivity. Qed.

(** A length that is not a string makes the prompt builder raise. *)
Example numeric_length_raises :
  build_summary_prompt Script.keyed (u"C") (JObj [ (u"length", JInt 5) ]) =
    Exc (mk_exn AttributeError (u"'int' object has no attribute 'lower'")).
Proof. reflexivity. Qed.

(** C1 at work: the library raises, the primary model answers 500, the
    secondary answers " X ": three calls in order, and X is returned. *)
Example summarize_falls_through :
  summarize Script.cfg_keyed (u"hello") (JObj [])
    (Script.start Script.keyed
       ([GenRaise Script.connection_lost],
        [Script.reply_error 500; Script.reply_json (u" X ")]))
  = (Ok {| summary := u"X"; meta_model := FALLBACK_MODEL;
           meta_mode := u"summarize"; meta_source := u"http-fallback";
           meta_options := JObj []; tokens_used := JNull |},
     Script.finish (E:=Script.keyed) ([], [])
       [ EvGenerate Script.keyed (u"gemini-2.0-flash")
           (GenText Script.hello_prompt);
         EvPost Script.keyed
           (generate_request Script.cfg_keyed Script.hello_prompt
              (u"gemini-2.0-flash"));
         EvPost Script.keyed
           (generate_request Script.cfg_keyed Script.hello_prompt
              FALLBACK_MODEL) ]).
Proof. reflexivity. Qed.

(** With no library and a failing network, every tier comes back absent and
    [summarize] raises after the second post. *)
Lemma network_down_run :
  summarize Script.cfg_no_library (u"hello") (JObj [])
    (Script.network_down Script.keyed_no_library (fun w => w))
  = (Exc (mk_exn RuntimeError (u"All summarization methods failed")),
     Script.finish (E:=Script.keyed_no_library) ([], [])
       [ EvPost Script.keyed_no_library
           (generate_request Script.cfg_no_library Script.hello_prompt
              (u"gemini-2.0-flash"));
         EvPost Script.keyed_no_library
           (generate_request Script.cfg_no_library Script.hello_prompt
              FALLBACK_MODEL) ]).
Proof. reflexivity. Qed.

(** C2, the claim as stated fails: with no library and two failing network
    replies every tier is absent, [summarize] raises, and the message of the
    error does not contain the name of the secondary model (nor does an
    exception hold anything but its class and message). *)
Lemma exhaustion_error_names_no_model :
  _genai_model Script.cfg_no_library = None /\
  ~ (exists e st',
        summarize Script.cfg_no_library (u"hello") (JObj [])
          (Script.network_down Script.keyed_no_library (fun w => w))
        = (Exc e, st') /\
        contains (exn_str e) FALLBACK_MODEL = true).
Proof.
  split; [reflexivity|].
  intros (e & st' & Hrun & Hname).
  rewrite network_down_run in Hrun. injection Hrun as He _. subst e.
  discriminate Hname.
Qed.

(** C2 on the failing network above. *)
Lemma summarize_exhaustion_witness :
  summarize Script.cfg_no_library (u"hello") (JObj [])
    (Script.network_down Script.keyed_no_library (fun w => w))
  = (Exc (mk_exn RuntimeError (u"All summarization methods failed")),
     after_post
       (generate_request Script.cfg_no_library Script.hello_prompt FALLBACK_MODEL)
       (after_post
          (generate_request Script.cfg_no_library Script.hello_prompt
             (DEFAULT_MODEL Script.cfg_no_library))
          (Script.network_down Script.keyed_no_library (fun w => w))))
  /\ contains (u"All summarization methods failed") FALLBACK_MODEL = false.
Proof.
  eapply (@summarize_exhaustion Script.keyed_no_library Script.cfg_no_library
            (u"hello") (JObj []) Script.hello_prompt None None None);
    reflexivity.
Defined.

(** The fallback scenario: no library, the primary model answers 500, the
    secondary answers " X ". *)
Lemma summarize_identifies_tier_witness :
  exists r,
    summarize Script.cfg_no_library (u"hello") (JObj [])
      (Script.start Script.keyed_no_library
         ([], [Script.reply_error 500; Script.reply_json (u" X ")]))
    = (Ok r,
       Script.finish (E:=Script.keyed_no_library) ([], [])
         [ EvPost Script.keyed_no_library
             (generate_request Script.cfg_no_library Script.hello_prompt
                (u"gemini-2.0-flash"));
           EvPost Script.keyed_no_library
             (generate_request Script.cfg_no_library Script.hello_prompt
                FALLBACK_MODEL) ]) /\
    summary r = u"X" /\
    meta_model r = FALLBACK_MODEL /\
    meta_source r = u"http-fallback".
Proof.
  eapply (proj2 (summarize_identifies_tier Script.cfg_no_library (u"hello")
                   (JObj []) _) Script.hello_prompt None (u"X"));
    try reflexivity.
  discriminate.
Defined.


(** C5, the claim as stated fails: SHORT is not one of short, medium,
    detailed, yet the prompt it yields is the one of short, not of medium. *)
Lemma uppercase_length_is_not_defaulted :
  recognized recognized_lengths (u"SHORT") = false /\
  build_summary_prompt Script.keyed (u"C")
    (JObj (dict_set [] (u"length") (JStr (u"SHORT")))) =
  build_summary_prompt Script.keyed (u"C")
    (JObj (dict_set [] (u"length") (JStr (u"short")))) /\
  build_summary_prompt Script.keyed (u"C")
    (JObj (dict_set [] (u"length") (JStr (u"SHORT")))) <>
  build_summary_prompt Script.keyed (u"C")
    (JObj (dict_set [] (u"length") (JStr (u"medium")))).
Proof.
  split; [reflexivity|]. split; [reflexivity|].
  intros H.
  apply (f_equal (fun o => match o with
                           | Ok p => contains p (u"2-3 concise sentences")
                           | Exc _ => false
                           end)) in H.
  vm_compute in H. discriminate H.
Qed.

(** C5 as amended, for the length tiny and the tone Poetic. *)
Lemma unrecognized_resolves_to_default_witness :
  build_summary_prompt Script.keyed (u"C")
    (JObj (dict_set [] (u"length") (JStr (u"tiny")))) =
  build_summary_prompt Script.keyed (u"C")
    (JObj (dict_set [] (u"length") (JStr (u"medium")))) /\
  build_summary_prompt Script.keyed (u"C")
    (JObj (dict_set [] (u"tone") (JStr (u"Poetic")))) =
  build_summary_prompt Script.keyed (u"C")
    (JObj (dict_set [] (u"tone") (JStr (u"neutral")))).
Proof.
  destruct (@unrecognized_resolves_to_default Script.keyed ascii_lower_on_ascii
              (u"C") [] (u"tiny") (u"Poetic")) as [Hlen Htone].
  split; [apply Hlen | apply Htone]; reflexivity.
Defined.

(** C6 for the language French. *)
Lemma language_directive_witness :
  build_summary_prompt Script.keyed (u"C")
    (JObj [ (u"length", JStr (u"short")); (u"tone", JStr (u"bullet"));
            (u"language", JStr (u"French")) ]) =
    Ok (spec_summary_prompt (u"2-3 concise sentences") (u"concise bullet points")
          (u" in French") (u"C")) /\
  image_prompt Script.keyed (JStr (u"French")) =
    spec_image_preamble ++ u" Respond in French.".
Proof.
  destruct (@language_directive Script.keyed (u"C")
              [ (u"length", JStr (u"short")); (u"tone", JStr (u"bullet"));
                (u"language", JStr (u"French")) ]
              (u"short") (u"bullet") eq_refl eq_refl) as [Hsome _].
  exact (Hsome eq_refl).
Defined.

(** C7 for a reply of the expected shape. *)
Lemma http_generate_text_or_absent_witness :
  _http_generate Script.cfg_keyed (u"p") (u"gemini-2.0-flash")
    (Script.start Script.keyed ([], [Script.reply_json (u" X ")]))
  = (Ok (Some (u"X")),
     after_post (generate_request Script.cfg_keyed (u"p") (u"gemini-2.0-flash"))
       (Script.start Script.keyed ([], [Script.reply_json (u" X ")]))).
Proof.
  destruct (@http_generate_text_or_absent Script.keyed Script.cfg_keyed (u"p")
              (u"gemini-2.0-flash")
              (Script.start Script.keyed ([], [Script.reply_json (u" X ")]))
              eq_refl) as [Hshape _].
  exact (Hshape _ (u" X ") eq_refl eq_refl).
Defined.

(** C3, where the code falls short of it. When the library rejects the
    preferred model at start-up, the handle is the one built for the
    secondary model (lines 36-40); a summary it produces is nevertheless
    recorded under the preferred model's name, because line 109 sets
    [used_model] to DEFAULT_MODEL whatever the handle. The raw-network path
    does record the secondary model when that one answers (line 117). *)
Theorem fallback_handle_reported_as_preferred :
  _genai_model (module_config Script.keyed_old_library) = Some FALLBACK_MODEL /\
  summarize (module_config Script.keyed_old_library) (u"hello") (JObj [])
    (Script.start Script.keyed_old_library ([Script.reply_text (u"Hi")], []))
  = (Ok {| summary := u"Hi"; meta_model := u"gemini-2.0-flash";
           meta_mode := u"summarize"; meta_source := u"genai";
           meta_options := JObj []; tokens_used := JNull |},
     Script.finish (E:=Script.keyed_old_library) ([], [])
       [ EvGenerate Script.keyed_old_library FALLBACK_MODEL
           (GenText Script.hello_prompt) ]) /\
  u"gemini-2.0-flash" <> FALLBACK_MODEL /\
  summarize (module_config Script.keyed_old_library) (u"hello") (JObj [])
    (Script.start Script.keyed_old_library
       ([GenRaise Script.connection_lost],
        [Script.reply_error 500; Script.reply_json (u" X ")]))
  = (Ok {| summary := u"X"; meta_model := FALLBACK_MODEL;
           meta_mode := u"summarize"; meta_source := u"http-fallback";
           meta_options := JObj []; tokens_used := JNull |},
     Script.finish (E:=Script.keyed_old_library) ([], [])
       [ EvGenerate Script.keyed_old_library FALLBACK_MODEL
           (GenText Script.hello_prompt);
         EvPost Script.keyed_old_library
           (generate_request (module_config Script.keyed_old_library)
              Script.hello_prompt (u"gemini-2.0-flash"));
         EvPost Script.keyed_old_library
           (generate_request (module_config Script.keyed_old_library)
              Script.hello_prompt FALLBACK_MODEL) ]).
Proof.
  split; [reflexivity|]. split; [reflexivity|]. split; [discriminate|].
  reflexivity.
Qed.

(** C8, where the code falls short of it. A blank text is rejected with a
    400 before [summarize] runs, but an image part with no bytes is not
    rejected: line 175 only checks that the part is there. The request
    reaches [image_context], the library is called with the empty image, and
    the answer is a 200 with its text. *)
Theorem empty_image_is_analyzed :
  dict_lookup (files Script.empty_image_request) (u"image")
    = Some {| fs_data := []; fs_mimetype := u"image/png" |} /\
  analyze Script.cfg_keyed Script.empty_image_request
    (Script.start Script.keyed ([Script.reply_text (u"A blank picture.")], []))
  = (Ok {| resp_body :=
             image_body Script.cfg_keyed (u"A blank picture.") (u"unknown")
               (JObj []);
           resp_status := 200 |},
     Script.finish (E:=Script.keyed) ([], [])
       [ EvGenerate Script.keyed (u"gemini-2.0-flash")
           (GenVision spec_image_preamble
              {| inline_data := []; mime_type := u"image/png" |}) ]) /\
  analyze Script.cfg_keyed Script.blank_text_request
    (Script.start Script.keyed ([Script.reply_text (u"A blank picture.")], []))
  = (Ok {| resp_body := error_body (u"No text provided"); resp_status := 400 |},
     Script.start Script.keyed ([Script.reply_text (u"A blank picture.")], [])).
Proof. repeat split. Qed.

(** The two rejections, for a blank text and for a missing image part. *)
Lemma empty_request_rejected_witness :
  (forall summ imgc,
      analyze_with Script.cfg_keyed summ imgc Script.blank_text_request
        (Script.start Script.keyed ([], []))
      = (Ok {| resp_body := error_body (u"No text provided");
               resp_status := 400 |},
         Script.start Script.keyed ([], []))) /\
  (forall summ imgc,
      analyze_with Script.cfg_keyed summ imgc Script.missing_image_request
        (Script.start Script.keyed ([], []))
      = (Ok {| resp_body := error_body (u"Image file missing");
               resp_status := 400 |},
         Script.start Script.keyed ([], []))).
Proof.
  split; intros summ imgc.
  - apply (proj1 (empty_request_rejected Script.cfg_keyed Script.blank_text_request)
             [ (u"mode", JStr (u"summarize")); (u"text", JStr (u"   ")) ]
             (u"   ")); reflexivity.
  - apply (proj2 (empty_request_rejected Script.cfg_keyed
                    Script.missing_image_request)); reflexivity.
Defined.

(** C9 for SHORT and Bullet. *)
Lemma length_tone_case_insensitive_witness :
  build_summary_prompt Script.keyed (u"C")
    (JObj (dict_set (dict_set [] (u"length") (JStr (u"SHORT")))
             (u"tone") (JStr (u"Bullet")))) =
  build_summary_prompt Script.keyed (u"C")
    (JObj (dict_set (dict_set [] (u"length") (JStr (u"short")))
             (u"tone") (JStr (u"bullet")))).
Proof.
  exact (@length_tone_case_insensitive Script.keyed ascii_lower_on_ascii
           ascii_lower_twice (u"C") [] (u"SHORT") (u"Bullet")).
Defined.

(** C10 for a process started without a key. *)
Lemma keyless_http_generate_absent_witness :
  _http_generate Script.cfg_keyless (u"p") FALLBACK_MODEL
    (Script.start Script.keyless ([], [Script.reply_json (u"X")]))
  = (Ok None, Script.start Script.keyless ([], [Script.reply_json (u"X")])).
Proof.
  exact (proj1 (@keyless_http_generate_absent Script.keyless Script.cfg_keyless
                  eq_refl) (u"p") FALLBACK_MODEL
           (Script.start Script.keyless ([], [Script.reply_json (u"X")]))).
Defined.

(* ================================================================== *)
(** ** Trimming *)

Lemma lstrip_all_space (s : pystr) : all_space s = true -> lstrip s = [].
Proof.
  induction s as [|c s IH]; simpl; [reflexivity|].
  intros H. apply andb_true_iff in H. destruct H as [Hc Hs].
  rewrite Hc. auto.
Qed.

Lemma lstrip_nil_all_space (s : pystr) : lstrip s = [] -> all_space s = true.
Proof.
  induction s as [|c s IH]; simpl; [reflexivity|].
  destruct (isspace c); [auto | discriminate].
Qed.

Lemma lstrip_shape (s : pystr) :
  lstrip s = [] \/ exists c r, lstrip s = c :: r /\ isspace c = false.
Proof.
  induction s as [|c s IH]; simpl; [left; reflexivity|].
  destruct (isspace c) eqn:Hc; [exact IH | right; eauto].
Qed.

Lemma lstrip_head (c : N) (r : pystr) :
  isspace c = false -> lstrip (c :: r) = c :: r.
Proof. intros H. simpl. rewrite H. reflexivity. Qed.

Lemma lstrip_space_app (p s : pystr) :
  all_space p = true -> lstrip (p ++ s) = lstrip s.
Proof.
  induction p as [|c p IH]; simpl; [reflexivity|].
  intros H. apply andb_true_iff in H. destruct H as [Hc Hp].
  rewrite Hc. auto.
Qed.

Lemma lstrip_app_solid (s p : pystr) :
  lstrip s <> [] -> lstrip (s ++ p) = lstrip s ++ p.
Proof.
  induction s as [|c s IH]; simpl; [congruence|].
  destruct (isspace c); [exact IH | reflexivity].
Qed.

Lemma all_space_rev (s : pystr) : all_space (rev s) = all_space s.
Proof.
  unfold all_space. induction s as [|c s IH]; simpl; [reflexivity|].
  rewrite forallb_app, IH. simpl. rewrite andb_true_r. apply andb_comm.
Qed.

Lemma all_space_app (s t : pystr) :
  all_space (s ++ t) = all_space s && all_space t.
Proof. apply forallb_app. Qed.

Lemma rstrip_app_space (s p : pystr) :
  all_space p = true -> rstrip (s ++ p) = rstrip s.
Proof.
  intros H. unfold rstrip. rewrite rev_app_distr, lstrip_space_app; [reflexivity|].
  rewrite all_space_rev. exact H.
Qed.

Lemma rstrip_all_space (s : pystr) : all_space s = true -> rstrip s = [].
Proof.
  intros H. unfold rstrip. rewrite lstrip_all_space; [reflexivity|].
  rewrite all_space_rev. exact H.
Qed.

(** Trimming the right end keeps a solid first character in place. *)
Lemma rstrip_head (c : N) (r : pystr) :
  isspace c = false -> exists r', rstrip (c :: r) = c :: r'.
Proof.
  intros Hc. unfold rstrip. simpl.
  assert (H : forall l, exists l', lstrip (l ++ [c]) = l' ++ [c]).
  { induction l as [|a l IH]; simpl.
    - rewrite Hc. exists []. reflexivity.
    - destruct (isspace a); [exact IH | exists (a :: l); reflexivity]. }
  destruct (H (rev r)) as [l' Hl]. rewrite Hl, rev_app_distr. simpl. eauto.
Qed.

Lemma strip_all_space (s : pystr) : all_space s = true -> strip s = [].
Proof. intros H. unfold strip. rewrite lstrip_all_space; auto. Qed.

Lemma strip_nil_all_space (s : pystr) : strip s = [] -> all_space s = true.
Proof.
  unfold strip. intros H. apply lstrip_nil_all_space.
  destruct (lstrip_shape s) as [Hn|(c & r & Hs & Hc)]; [exact Hn|].
  rewrite Hs in H. destruct (@rstrip_head c r Hc) as [r' Hr].
  rewrite Hr in H. discriminate.
Qed.

Lemma lstrip_strip (s : pystr) : lstrip (strip s) = strip s.
Proof.
  unfold strip.
  destruct (lstrip_shape s) as [Hn|(c & r & Hs & Hc)].
  - rewrite Hn. reflexivity.
  - rewrite Hs. destruct (@rstrip_head c r Hc) as [r' Hr]. rewrite Hr.
    apply lstrip_head. exact Hc.
Qed.

Lemma lstrip_idem (s : pystr) : lstrip (lstrip s) = lstrip s.
Proof.
  destruct (lstrip_shape s) as [Hn|(c & r & Hs & Hc)].
  - rewrite Hn. reflexivity.
  - rewrite Hs. apply lstrip_head. exact Hc.
Qed.

Lemma rstrip_idem (s : pystr) : rstrip (rstrip s) = rstrip s.
Proof. unfold rstrip. rewrite rev_involutive, lstrip_idem. reflexivity. Qed.

Lemma strip_idem (s : pystr) : strip (strip s) = strip s.
Proof.
  unfold strip at 1. rewrite lstrip_strip. unfold strip. apply rstrip_idem.
Qed.

(** Whitespace around a text does not survive trimming. *)
Lemma strip_padded (pre s post : pystr) :
  all_space pre = true -> all_space post = true ->
  strip (pre ++ s ++ post) = strip s.
Proof.
  intros Hpre Hpost. unfold strip. rewrite lstrip_space_app by exact Hpre.
  destruct (lstrip_shape s) as [Hn|(c & r & Hs & Hc)].
  - rewrite Hn. rewrite lstrip_all_space; [reflexivity|].
    rewrite all_space_app, Hpost, (lstrip_nil_all_space s Hn). reflexivity.
  - rewrite lstrip_app_solid by (rewrite Hs; discriminate).
    apply rstrip_app_space. exact Hpost.
Qed.

(* ================================================================== *)
(** ** Further properties of the prompt builder *)

Section PromptExtras.

Variable E : Env.

(** X1. Whitespace before and after the content never reaches the prompt:
    padding the text with whitespace on either side changes nothing in what
    the prompt builder returns. *)
Theorem prompt_ignores_outer_whitespace (pre text post : pystr) (options : json) :
  all_space pre = true -> all_space post = true ->
  build_summary_prompt E (pre ++ text ++ post) options =
  build_summary_prompt E text options.
Proof.
  intros Hpre Hpost. unfold build_summary_prompt.
  rewrite strip_padded by assumption. reflexivity.
Qed.

(** X2. A length or tone that is absent or falsy, of whatever type (None,
    the empty string, 0, false, an empty list or object), is replaced by the
    default before anything is done with it: the result is that of medium,
    respectively neutral. *)
Theorem falsy_option_is_default (text : pystr) (d : dict json) :
  (forall v, truthy v = false ->
     build_summary_prompt E text (JObj (dict_set d (u"length") v)) =
     build_summary_prompt E text (JObj (dict_set d (u"length") (JStr (u"medium"))))) /\
  (forall v, truthy v = false ->
     build_summary_prompt E text (JObj (dict_set d (u"tone") v)) =
     build_summary_prompt E text (JObj (dict_set d (u"tone") (JStr (u"neutral"))))) /\
  (dict_lookup d (u"length") = None ->
     build_summary_prompt E text (JObj d) =
     build_summary_prompt E text (JObj (dict_set d (u"length") (JStr (u"medium"))))) /\
  (dict_lookup d (u"tone") = None ->
     build_summary_prompt E text (JObj d) =
     build_summary_prompt E text (JObj (dict_set d (u"tone") (JStr (u"neutral"))))).
Proof.
  repeat split; intros; rewrite !build_summary_prompt_dict;
    unfold dict_get_default; rewrite ?dict_lookup_set_same;
    rewrite ?dict_lookup_set_other by reflexivity.
  - unfold py_or at 1. rewrite H. reflexivity.
  - unfold py_or at 2. rewrite H. reflexivity.
  - rewrite H. reflexivity.
  - rewrite H. reflexivity.
Qed.

(** X3. The prompt builder returns a prompt exactly when the options are a
    dictionary whose length and tone, once defaulted, are strings. Otherwise
    it raises AttributeError: for the missing [get] of options that are not
    a dictionary, or for the missing [lower] of the first of length and tone
    that is not a string. *)
Theorem prompt_builder_succeeds_iff (text : pystr) (options : json) :
  ((exists prompt, build_summary_prompt E text options = Ok prompt) <->
   (exists d,
       options = JObj d /\
       is_str (py_or (dict_get_default d (u"length") JNull) (JStr (u"medium")))
         = true /\
       is_str (py_or (dict_get_default d (u"tone") JNull) (JStr (u"neutral")))
         = true)) /\
  ((forall d, options <> JObj d) ->
   build_summary_prompt E text options = Exc (no_attribute options (u"get"))) /\
  (forall d,
      options = JObj d ->
      let length := py_or (dict_get_default d (u"length") JNull) (JStr (u"medium")) in
      let tone := py_or (dict_get_default d (u"tone") JNull) (JStr (u"neutral")) in
      (is_str length = false ->
       build_summary_prompt E text options = Exc (no_attribute length (u"lower"))) /\
      (is_str length = true -> is_str tone = false ->
       build_summary_prompt E text options = Exc (no_attribute tone (u"lower")))).
Proof.
  split; [|split].
  - split.
    + intros [prompt Hp]. destruct options as [| | | | | |d]; try discriminate Hp.
      exists d. split; [reflexivity|].
      rewrite build_summary_prompt_dict in Hp.
      destruct (py_or (dict_get_default d (u"length") JNull) _);
        try discriminate Hp.
      destruct (py_or (dict_get_default d (u"tone") JNull) _);
        try discriminate Hp.
      split; reflexivity.
    + intros (d & -> & HL & HT). rewrite build_summary_prompt_dict.
      destruct (py_or (dict_get_default d (u"length") JNull) _);
        try discriminate HL.
      destruct (py_or (dict_get_default d (u"tone") JNull) _);
        try discriminate HT.
      eexists. reflexivity.
  - intros Hnot. destruct options as [| | | | | |d]; try reflexivity.
    exfalso. apply (Hnot d). reflexivity.
  - intros d -> length tone. rewrite build_summary_prompt_dict.
    fold length. fold tone. split.
    + intros HL. destruct length; try discriminate HL; reflexivity.
    + intros HL HT. destruct length; try discriminate HL.
      destruct tone; try discriminate HT; reflexivity.
Qed.

(** X4. Only the keys length, tone and language of the options matter: two
    dictionaries that agree on these three give the same result. *)
Theorem prompt_reads_three_keys (text : pystr) (d d' : dict json) :
  dict_lookup d (u"length") = dict_lookup d' (u"length") ->
  dict_lookup d (u"tone") = dict_lookup d' (u"tone") ->
  dict_lookup d (u"language") = dict_lookup d' (u"language") ->
  build_summary_prompt E text (JObj d) = build_summary_prompt E text (JObj d').
Proof.
  intros HL HT HG. rewrite !build_summary_prompt_dict. unfold dict_get_default.
  rewrite HL, HT, HG. reflexivity.
Qed.

End PromptExtras.

(* ================================================================== *)
(** ** Further properties of the library client *)

Lemma strip_opt_trimmed (t : option pystr) (x : pystr) :
  strip_opt t = Ok (Some x) -> strip x = x.
Proof.
  destruct t as [s|]; simpl; [|discriminate].
  intros H. injection H as <-. apply strip_idem.
Qed.

Lemma text_if_present_trimmed (owner : pystr) (a : attr (option pystr))
    (x : pystr) :
  text_if_present owner a = Ok (Some (Some x)) -> strip x = x.
Proof.
  unfold text_if_present. destruct a as [|e|[s|]]; simpl; try discriminate.
  - destruct (is_attribute_error e); discriminate.
  - destruct s as [|c s]; simpl; [discriminate|].
    intros H. injection H as <-. apply strip_idem.
Qed.

Lemma text_if_present_some (owner : pystr) (a : attr (option pystr))
    (r : option pystr) :
  text_if_present owner a = Ok (Some r) ->
  exists c s, a = Has (Some (c :: s)) /\ r = Some (strip (c :: s)).
Proof.
  unfold text_if_present. destruct a as [|e|[s|]]; simpl; try discriminate.
  - destruct (is_attribute_error e); discriminate.
  - destruct s as [|c s]; simpl; [discriminate|].
    intros H. injection H as <-. eauto.
Qed.

Lemma text_if_present_unusable (owner : pystr) (a : attr (option pystr)) :
  text_unusable a = true -> text_if_present owner a = Ok None.
Proof. destruct a as [|e|[[|c s]|]]; simpl; try discriminate; reflexivity. Qed.

Lemma candidates_text_trimmed (resp : gen_response) (x : pystr) :
  candidates_text resp = Ok (Some x) -> strip x = x.
Proof.
  unfold candidates_text.
  destruct (resp_candidates resp) as [|e|[|cand rest]]; simpl; try discriminate.
  { destruct (is_attribute_error e); discriminate. }
  destruct (cand_content cand) as [|e|[content|]]; simpl; try discriminate.
  { destruct (is_attribute_error e); discriminate. }
  destruct (content_parts content) as [|e|[|p ps]]; simpl; try discriminate.
  destruct (part_text p) as [|e|t]; simpl; try discriminate.
  { destruct (is_attribute_error e); discriminate. }
  apply strip_opt_trimmed.
Qed.

Section LibraryExtras.

Variable E : Env.
Variable cfg : config E.

Lemma genai_summarize_result (h : Handle E) (prompt : pystr) (st : state E) :
  _genai_model cfg = Some h ->
  _genai_summarize cfg prompt st
  = (Ok match fst (generate_content E h (GenText prompt) (world st)) with
        | GenRaise _ => None
        | GenReturn resp =>
            match text_if_present (u"GenerateContentResponse") (resp_text resp) with
            | Ok (Some res) => res
            | Ok None =>
                match candidates_text resp with
                | Ok r => r
                | Exc _ => None
                end
            | Exc _ => None
            end
        end,
     after_generate h (GenText prompt) st).
Proof.
  intros Hh. unfold _genai_summarize. rewrite Hh.
  unfold try_except, bind, call_generate, after_generate, lift, ret.
  destruct (generate_content E h (GenText prompt) (world st)) as [out w]. simpl.
  destruct out as [e|resp]; simpl; [reflexivity|].
  destruct (text_if_present _ _) as [[res|]|e]; try reflexivity.
  destruct (candidates_text resp); reflexivity.
Qed.

Lemma image_context_result (h : Handle E) (prompt : pystr) (part : image_part)
    (st : state E) :
  _genai_model cfg = Some h ->
  image_context cfg prompt part st
  = (Ok match fst (generate_content E h (GenVision prompt part) (world st)) with
        | GenRaise _ => None
        | GenReturn resp =>
            match text_if_present (u"GenerateContentResponse") (resp_text resp) with
            | Ok (Some res) => res
            | _ => None
            end
        end,
     after_generate h (GenVision prompt part) st).
Proof.
  intros Hh. unfold image_context. rewrite Hh.
  unfold try_except, bind, call_generate, after_generate, lift, ret.
  destruct (generate_content E h (GenVision prompt part) (world st)) as [out w].
  simpl. destruct out as [e|resp]; simpl; [reflexivity|].
  destruct (text_if_present _ _) as [[res|]|e]; reflexivity.
Qed.

(** X5. With a library handle, [_genai_summarize] makes one call and then:
    a raising call gives absent; a response whose [text] is a non-empty
    string gives that text trimmed; a response whose [text] property raises
    anything but AttributeError gives absent, whatever its candidates hold;
    and a [text] property that raises AttributeError counts as a missing
    attribute, so the first candidate's first text is returned trimmed. *)
Theorem genai_summarize_reads_text (h : Handle E) (prompt : pystr) (st : state E) :
  _genai_model cfg = Some h ->
  let out := fst (generate_content E h (GenText prompt) (world st)) in
  let returns r :=
    _genai_summarize cfg prompt st = (Ok r, after_generate h (GenText prompt) st) in
  (forall e, out = GenRaise e -> returns None) /\
  (forall resp c s,
      out = GenReturn resp -> resp_text resp = Has (Some (c :: s)) ->
      returns (Some (strip (c :: s)))) /\
  (forall resp e,
      out = GenReturn resp -> resp_text resp = Raising e ->
      is_attribute_error e = false -> returns None) /\
  (forall resp e cand rest content p ps t,
      out = GenReturn resp -> resp_text resp = Raising e ->
      is_attribute_error e = true ->
      resp_candidates resp = Has (cand :: rest) ->
      cand_content cand = Has (Some content) ->
      content_parts content = Has (p :: ps) ->
      part_text p = Has (Some t) ->
      returns (Some (strip t))).
Proof.
  intros Hh out returns. unfold returns.
  rewrite (genai_summarize_result prompt st Hh). fold out.
  repeat split.
  - intros e ->. reflexivity.
  - intros resp c s -> Ht. rewrite Ht. reflexivity.
  - intros resp e -> Ht He. rewrite Ht. unfold text_if_present. simpl.
    rewrite He. reflexivity.
  - intros resp e cand rest content p ps t -> Ht He Hc Hcc Hcp Hpt.
    rewrite Ht. unfold text_if_present, candidates_text. simpl.
    rewrite He. simpl. rewrite Hc. simpl. rewrite Hcc. simpl. rewrite Hcp.
    simpl. rewrite Hpt. reflexivity.
Qed.

(** X6. When the response's [text] is missing, None or empty,
    [_genai_summarize] falls back on the first part of the first candidate:
    its text, trimmed, is returned; without candidates the result is
    absent. *)
Theorem genai_summarize_reads_candidates (h : Handle E) (prompt : pystr)
    (st : state E) (resp : gen_response) :
  _genai_model cfg = Some h ->
  fst (generate_content E h (GenText prompt) (world st)) = GenReturn resp ->
  text_unusable (resp_text resp) = true ->
  let returns r :=
    _genai_summarize cfg prompt st = (Ok r, after_generate h (GenText prompt) st) in
  (forall cand rest content p ps t,
      resp_candidates resp = Has (cand :: rest) ->
      cand_content cand = Has (Some content) ->
      content_parts content = Has (p :: ps) ->
      part_text p = Has (Some t) ->
      returns (Some (strip t))) /\
  (resp_candidates resp = Missing \/ resp_candidates resp = Has [] ->
   returns None).
Proof.
  intros Hh Hout Htext returns. unfold returns.
  rewrite (genai_summarize_result prompt st Hh), Hout.
  rewrite (text_if_present_unusable _ _ Htext). unfold candidates_text.
  split.
  - intros cand rest content p ps t Hc Hcc Hcp Hpt.
    rewrite Hc. simpl. rewrite Hcc. simpl. rewrite Hcp. simpl. rewrite Hpt.
    reflexivity.
  - intros [Hc|Hc]; rewrite Hc; reflexivity.
Qed.

(** X7. [image_context] looks at the response's [text] only: a non-empty
    string is returned trimmed, and a [text] that is missing, None, empty
    or raising gives absent even when the candidates hold a text. *)
Theorem image_context_reads_text_only (h : Handle E) (prompt : pystr)
    (part : image_part) (st : state E) (resp : gen_response) :
  _genai_model cfg = Some h ->
  fst (generate_content E h (GenVision prompt part) (world st)) = GenReturn resp ->
  let returns r :=
    image_context cfg prompt part st
    = (Ok r, after_generate h (GenVision prompt part) st) in
  (forall c s,
      resp_text resp = Has (Some (c :: s)) -> returns (Some (strip (c :: s)))) /\
  (text_unusable (resp_text resp) = true -> returns None) /\
  (forall e, resp_text resp = Raising e -> returns None).
Proof.
  intros Hh Hout returns. unfold returns.
  rewrite (image_context_result prompt part st Hh), Hout.
  repeat split.
  - intros c s Ht. rewrite Ht. reflexivity.
  - intros Ht. rewrite (text_if_present_unusable _ _ Ht). reflexivity.
  - intros e Ht. rewrite Ht. unfold text_if_present. simpl.
    destruct (is_attribute_error e); reflexivity.
Qed.

Lemma genai_summarize_trimmed (prompt x : pystr) (st st' : state E) :
  _genai_summarize cfg prompt st = (Ok (Some x), st') -> strip x = x.
Proof.
  destruct (_genai_model cfg) as [h|] eqn:Hh.
  - rewrite (genai_summarize_result prompt st Hh).
    destruct (fst (generate_content E h (GenText prompt) (world st)))
      as [e|resp]; [discriminate|].
    destruct (text_if_present _ _) as [[res|]|e] eqn:Ht.
    + intros H. injection H as -> _.
      apply (text_if_present_trimmed _ _ Ht).
    + destruct (candidates_text resp) as [r|e] eqn:Hc; [|discriminate].
      intros H. injection H as -> _. apply (candidates_text_trimmed _ Hc).
    + discriminate.
  - unfold _genai_summarize. rewrite Hh. discriminate.
Qed.

Lemma http_generate_trimmed (prompt model_name x : pystr) (st st' : state E) :
  _http_generate cfg prompt model_name st = (Ok (Some x), st') -> strip x = x.
Proof.
  destruct (nonempty (API_KEY cfg)) eqn:Hkey.
  - rewrite (http_generate_keyed cfg prompt model_name st Hkey).
    destruct (fst (requests_post E _ (world st))) as [e|code [data|]];
      simpl; try discriminate.
    destruct (code =? 200)%Z; [|discriminate].
    destruct (spec_first_text data) as [t|]; simpl; [|discriminate].
    intros H. injection H as <- _. apply strip_idem.
  - rewrite (http_generate_keyless cfg prompt model_name st Hkey). discriminate.
Qed.

Lemma attempt_trimmed (t : tier) (prompt x : pystr) (st st' : state E) :
  attempt cfg t prompt st = (Ok (Some x), st') -> strip x = x.
Proof.
  destruct t; simpl.
  - apply genai_summarize_trimmed.
  - apply http_generate_trimmed.
  - apply http_generate_trimmed.
Qed.

Lemma prompt_builder_raises_attribute_error (text : pystr) (options : json)
    (e : exn) :
  build_summary_prompt E text options = Exc e -> exn_type e = AttributeError.
Proof.
  destruct options as [| | | | | |d];
    try (intros H; injection H as <-; reflexivity).
  rewrite build_summary_prompt_dict.
  destruct (py_or (dict_get_default d (u"length") JNull) _);
    try (intros H; injection H as <-; reflexivity).
  destruct (py_or (dict_get_default d (u"tone") JNull) _);
    try (intros H; injection H as <-; reflexivity).
  discriminate.
Qed.

(** X8. Every record [summarize] returns has a summary that is non-empty
    and already trimmed, the mode summarize, the caller's options unchanged,
    no token count, and as model either the preferred or the secondary
    one. *)
Theorem summarize_result_shape (text : pystr) (options : json)
    (st st' : state E) (r : summary_result) :
  summarize cfg text options st = (Ok r, st') ->
  summary r <> [] /\
  strip (summary r) = summary r /\
  meta_mode r = u"summarize" /\
  meta_options r = options /\
  tokens_used r = JNull /\
  (meta_model r = DEFAULT_MODEL cfg \/ meta_model r = FALLBACK_MODEL).
Proof.
  intros Hs.
  destruct (build_summary_prompt E text options) as [prompt|e] eqn:Hp.
  2:{ unfold summarize, bind, lift in Hs. rewrite Hp in Hs. discriminate. }
  destruct (attempt_returns cfg ManagedLibrary prompt st) as [r1 H1].
  set (s1 := after_attempt cfg ManagedLibrary prompt st) in *.
  destruct (attempt_returns cfg RawPrimary prompt s1) as [r2 H2].
  set (s2 := after_attempt cfg RawPrimary prompt s1) in *.
  destruct (attempt_returns cfg RawFallback prompt s2) as [r3 H3].
  set (s3 := after_attempt cfg RawFallback prompt s2) in *.
  erewrite summarize_cases in Hs; [| exact Hp | exact H1 | exact H2 | exact H3].
  destruct r1 as [[|c1 t1]|];
    [| injection Hs as <- _; apply attempt_trimmed in H1;
       repeat split; auto; discriminate |];
    (destruct r2 as [[|c2 t2]|];
      [| injection Hs as <- _; apply attempt_trimmed in H2;
         repeat split; auto; discriminate |]);
    (destruct r3 as [[|c3 t3]|];
      [| injection Hs as <- _; apply attempt_trimmed in H3;
         repeat split; auto; discriminate |]);
    discriminate Hs.
Qed.

(** X9. [summarize] lets only two exceptions out: the AttributeError of the
    prompt builder, raised before any call is made, and the RuntimeError
    "All summarization methods failed". *)
Theorem summarize_raises_only (text : pystr) (options : json)
    (st st' : state E) (e : exn) :
  summarize cfg text options st = (Exc e, st') ->
  (build_summary_prompt E text options = Exc e /\
   exn_type e = AttributeError /\ st' = st) \/
  ((exists prompt, build_summary_prompt E text options = Ok prompt) /\
   e = mk_exn RuntimeError (u"All summarization methods failed")).
Proof.
  intros Hs.
  destruct (build_summary_prompt E text options) as [prompt|e0] eqn:Hp.
  2:{ left. unfold summarize, bind, lift in Hs. rewrite Hp in Hs.
      injection Hs as <- <-.
      repeat split. apply (prompt_builder_raises_attribute_error _ _ Hp). }
  right. split; [eauto|].
  destruct (attempt_returns cfg ManagedLibrary prompt st) as [r1 H1].
  set (s1 := after_attempt cfg ManagedLibrary prompt st) in *.
  destruct (attempt_returns cfg RawPrimary prompt s1) as [r2 H2].
  set (s2 := after_attempt cfg RawPrimary prompt s1) in *.
  destruct (attempt_returns cfg RawFallback prompt s2) as [r3 H3].
  erewrite summarize_cases in Hs; [| exact Hp | exact H1 | exact H2 | exact H3].
  destruct r1 as [[|c1 t1]|]; try discriminate Hs;
    destruct r2 as [[|c2 t2]|]; try discriminate Hs;
    destruct r3 as [[|c3 t3]|]; try discriminate Hs;
    injection Hs as <- _; reflexivity.
Qed.

(** X20. Neither library client lets an exception out, whatever the
    library returns or raises; each makes exactly one [generate_content]
    call when there is a handle and none when there is not. *)
Theorem library_clients_never_raise (prompt : pystr) (part : image_part)
    (st : state E) :
  (exists r,
      _genai_summarize cfg prompt st =
        (Ok r, match _genai_model cfg with
               | Some h => after_generate h (GenText prompt) st
               | None => st
               end)) /\
  (exists r,
      image_context cfg prompt part st =
        (Ok r, match _genai_model cfg with
               | Some h => after_generate h (GenVision prompt part) st
               | None => st
               end)).
Proof.
  split.
  - apply (genai_summarize_returns cfg prompt st).
  - apply image_context_returns.
Qed.

End LibraryExtras.

(* ================================================================== *)
(** ** Further properties of the orchestrator and of the route *)

Section RouteExtras.

Variable E : Env.
Variable cfg : config E.

(** X10. A 200 answer of the primary model whose text is blank does not
    count as a success: [_http_generate] returns the empty string, and
    [summarize] goes on to ask the secondary model, whose answer decides. *)
Theorem blank_reply_is_not_success (text : pystr) (options : json)
    (prompt : pystr) (r1 : option pystr) (st0 st : state E) (data : json)
    (t : pystr) :
  nonempty (API_KEY cfg) = true ->
  build_summary_prompt E text options = Ok prompt ->
  _genai_summarize cfg prompt st0 = (Ok r1, st) -> opt_truthy r1 = false ->
  let primary := generate_request cfg prompt (DEFAULT_MODEL cfg) in
  let secondary := generate_request cfg prompt FALLBACK_MODEL in
  fst (requests_post E primary (world st)) = HttpResponse 200 (Some data) ->
  spec_first_text data = Some t ->
  all_space t = true ->
  let s2 := after_post primary st in
  let s3 := after_post secondary s2 in
  _http_generate cfg prompt (DEFAULT_MODEL cfg) st = (Ok (Some []), s2) /\
  summarize cfg text options st0 =
    match spec_http_text (fst (requests_post E secondary (world s2))) with
    | Some (c :: s) =>
        (Ok {| summary := c :: s; meta_model := FALLBACK_MODEL;
               meta_mode := u"summarize"; meta_source := u"http-fallback";
               meta_options := options; tokens_used := JNull |}, s3)
    | _ =>
        (Exc (mk_exn RuntimeError (u"All summarization methods failed")), s3)
    end.
Proof.
  intros Hkey Hp H1 F1 primary secondary Hout Hshape Hblank s2 s3.
  assert (H2 : _http_generate cfg prompt (DEFAULT_MODEL cfg) st = (Ok (Some []), s2)).
  { rewrite (http_generate_keyed cfg prompt (DEFAULT_MODEL cfg) st Hkey).
    fold primary. rewrite Hout. simpl. rewrite Hshape. simpl.
    rewrite (strip_all_space t Hblank). reflexivity. }
  split; [exact H2|].
  pose proof (http_generate_keyed cfg prompt FALLBACK_MODEL s2 Hkey) as H3.
  fold secondary in H3. fold s3 in H3.
  erewrite summarize_cases; [| exact Hp | exact H1 | exact H2 | exact H3].
  destruct r1 as [[|? ?]|]; try discriminate F1;
    destruct (spec_http_text _) as [[|? ?]|]; reflexivity.
Qed.

(** X11. A JSON request with mode summarize and a text that is not blank is
    passed on with the text trimmed and the options defaulted to an empty
    object; what the orchestrator returns becomes a 200 with the record, and
    whatever it raises becomes a 502 with the message and the class name of
    the exception. The route itself raises nothing. *)
Theorem analyze_wraps_summarize (req : request) (d : dict json) (t : pystr) :
  is_json_request req = true ->
  py_or (get_json req) (JObj []) = JObj d ->
  json_is_str (py_or (dict_get_default d (u"mode") JNull) (JStr (u"summarize")))
              (u"summarize") = true ->
  py_or (dict_get_default d (u"text") JNull) (JStr []) = JStr t ->
  all_space t = false ->
  forall summ imgc st,
    analyze_with cfg summ imgc req st =
      match summ (strip t) (py_or (dict_get_default d (u"options") JNull) (JObj [])) st
      with
      | (Ok r, st') =>
          (Ok {| resp_body := result_json r; resp_status := 200 |}, st')
      | (Exc e, st') =>
          (Ok {| resp_body :=
                   JObj [ (u"error", JStr (exn_str e));
                          (u"error_type", JStr (class_name (exn_type e))) ];
                 resp_status := 502 |}, st')
      end.
Proof.
  intros Hjson Hdata Hmode Htext Hsolid summ imgc st.
  unfold analyze_with. rewrite Hjson, Hdata. simpl.
  unfold bind, lift. simpl. rewrite Hmode. simpl. rewrite Htext. simpl.
  destruct (strip t) as [|c s] eqn:Hs.
  - apply strip_nil_all_space in Hs. congruence.
  - simpl. unfold try_except, ret.
    destruct (summ (c :: s) _ st) as [[r|e] st']; reflexivity.
Qed.

(** X12. A JSON request whose mode is anything but summarize, and a request
    that is neither JSON nor an image_context form, are answered 400 without
    the orchestrators being run. *)
Theorem analyze_rejects_unsupported (req : request) :
  (forall d,
      is_json_request req = true ->
      py_or (get_json req) (JObj []) = JObj d ->
      json_is_str (py_or (dict_get_default d (u"mode") JNull) (JStr (u"summarize")))
                  (u"summarize") = false ->
      forall summ imgc st,
        analyze_with cfg summ imgc req st =
          (Ok {| resp_body := error_body (u"Unsupported JSON mode");
                 resp_status := 400 |}, st)) /\
  (is_json_request req = false ->
   dict_get_default (form req) (u"mode") [] <> u"image_context" ->
   forall summ imgc st,
     analyze_with cfg summ imgc req st =
       (Ok {| resp_body := error_body (u"Unsupported request format or mode");
              resp_status := 400 |}, st)).
Proof.
  split.
  - intros d Hjson Hdata Hmode summ imgc st.
    unfold analyze_with. rewrite Hjson, Hdata. simpl.
    unfold bind, lift. simpl. rewrite Hmode. reflexivity.
  - intros Hjson Hmode summ imgc st.
    unfold analyze_with. rewrite Hjson.
    destruct (PyStr.eqb _ (u"image_context")) eqn:Heq; [|reflexivity].
    apply pystr_eqb_eq in Heq. contradiction.
Qed.

(** X13. What the route does not guard: a JSON body that is neither falsy
    nor an object, a text that is neither falsy nor a string, and image
    options that parse to something other than an object each make it raise
    AttributeError, before any orchestrator runs. *)
Theorem analyze_unguarded_types (req : request) :
  (is_json_request req = true ->
   (forall d, py_or (get_json req) (JObj []) <> JObj d) ->
   forall summ imgc st,
     analyze_with cfg summ imgc req st =
       (Exc (no_attribute (py_or (get_json req) (JObj [])) (u"get")), st)) /\
  (forall d,
      is_json_request req = true ->
      py_or (get_json req) (JObj []) = JObj d ->
      json_is_str (py_or (dict_get_default d (u"mode") JNull) (JStr (u"summarize")))
                  (u"summarize") = true ->
      is_str (py_or (dict_get_default d (u"text") JNull) (JStr [])) = false ->
      forall summ imgc st,
        analyze_with cfg summ imgc req st =
          (Exc (no_attribute (py_or (dict_get_default d (u"text") JNull) (JStr []))
                  (u"strip")), st)) /\
  (forall image_file,
      is_json_request req = false ->
      dict_get_default (form req) (u"mode") [] = u"image_context" ->
      dict_lookup (files req) (u"image") = Some image_file ->
      (forall d, request_options E req <> JObj d) ->
      forall summ imgc st,
        analyze_with cfg summ imgc req st =
          (Exc (no_attribute (request_options E req) (u"get")), st)).
Proof.
  repeat split.
  - intros Hjson Hnot summ imgc st. unfold analyze_with. rewrite Hjson.
    destruct (py_or (get_json req) (JObj [])) as [| | | | | |d];
      try reflexivity.
    exfalso. apply (Hnot d). reflexivity.
  - intros d Hjson Hdata Hmode Htext summ imgc st.
    unfold analyze_with. rewrite Hjson, Hdata. simpl.
    unfold bind, lift. simpl. rewrite Hmode. simpl.
    destruct (py_or (dict_get_default d (u"text") JNull) (JStr []));
      try discriminate Htext; reflexivity.
  - intros image_file Hjson Hmode Hfile Hnot summ imgc st.
    unfold analyze_with. rewrite Hjson, Hmode, pystr_eqb_refl, Hfile.
    destruct (request_options E req) as [| | | | | |d]; try reflexivity.
    exfalso. apply (Hnot d). reflexivity.
Qed.

End RouteExtras.

Section RouteInvariants.

Variable E : Env.
Variable cfg : config E.

(** X14. Whatever the orchestrators do, a response of the route has status
    200, 400 or 502, and 502 is given to JSON requests only. *)
Theorem analyze_status_codes (req : request)
    (summ : pystr -> json -> M E summary_result)
    (imgc : pystr -> image_part -> M E (option pystr))
    (st st' : state E) (resp : response) :
  analyze_with cfg summ imgc req st = (Ok resp, st') ->
  (resp_status resp = 200 \/ resp_status resp = 400 \/ resp_status resp = 502)%Z /\
  (is_json_request req = false -> resp_status resp <> 502%Z).
Proof.
  unfold analyze_with. destruct (is_json_request req).
  - unfold bind, lift, ret, try_except.
    destruct (py_get (py_or (get_json req) (JObj [])) (u"mode")) as [m0|e];
      [|discriminate].
    destruct (negb (json_is_str (py_or m0 (JStr (u"summarize"))) (u"summarize"))).
    { intros H. injection H as <- _. simpl. split; [auto | discriminate]. }
    destruct (py_get (py_or (get_json req) (JObj [])) (u"text")) as [t0|e];
      [|discriminate].
    destruct (py_method_str (u"strip") strip (py_or t0 (JStr []))) as [text|e];
      [|discriminate].
    destruct (py_get (py_or (get_json req) (JObj [])) (u"options")) as [o0|e];
      [|discriminate].
    destruct (negb (nonempty text)).
    { intros H. injection H as <- _. simpl. split; [auto | discriminate]. }
    destruct (summ text (py_or o0 (JObj [])) st) as [[r|e] s1];
      intros H; injection H as <- _; simpl; split; auto; discriminate.
  - destruct (PyStr.eqb _ (u"image_context")).
    2:{ intros H. injection H as <- _. simpl. split; [auto | discriminate]. }
    destruct (dict_lookup (files req) (u"image")) as [image_file|].
    2:{ intros H. injection H as <- _. simpl. split; [auto | discriminate]. }
    unfold bind, lift, ret.
    destruct (py_get (request_options E req) (u"language")) as [g0|e];
      [|discriminate].
    destruct (encode_image E image_file) as [part raw_bytes].
    destruct (imgc _ part st) as [[analysis|e] s1]; [|discriminate].
    intros H. injection H as <- _. simpl. split; [auto | discriminate].
Qed.

(** X15. An image request costs at most one call, and never a network
    post: with a handle, the library is called once with the image prompt
    and the encoded file; without one, nothing is called. *)
Theorem image_request_calls (req : request) (image_file : file_storage)
    (d : dict json) (st : state E) :
  is_json_request req = false ->
  dict_get_default (form req) (u"mode") [] = u"image_context" ->
  dict_lookup (files req) (u"image") = Some image_file ->
  request_options E req = JObj d ->
  let prompt :=
    image_prompt E (py_or (dict_get_default d (u"language") JNull) (JStr [])) in
  let part :=
    {| inline_data := b64encode E (fs_data image_file);
       mime_type := if nonempty (fs_mimetype image_file)
                    then fs_mimetype image_file else u"image/png" |} in
  exists resp,
    analyze cfg req st =
      (Ok resp,
       match _genai_model cfg with
       | Some h => after_generate h (GenVision prompt part) st
       | None => st
       end).
Proof.
  intros Hjson Hmode Hfile Hopts prompt part.
  destruct (image_context_returns cfg prompt part st) as [r Hr].
  unfold analyze, analyze_with.
  rewrite Hjson, Hmode, pystr_eqb_refl, Hfile, Hopts. simpl.
  unfold bind, lift, ret. simpl.
  match goal with
  | |- context [image_context cfg ?p ?q st] =>
      change (image_context cfg p q st) with (image_context cfg prompt part st)
  end.
  rewrite Hr. eexists. reflexivity.
Qed.

End RouteInvariants.

(* ================================================================== *)
(** ** Start-up *)

Section StartUp.

Variable E : Env.

Lemma module_config_handle_aux (h : Handle E) :
  _genai_model (module_config E) = Some h ->
  nonempty (API_KEY (module_config E)) = true.
Proof.
  unfold module_config. simpl.
  destruct (genai E) as [lib|]; [|discriminate].
  destruct (nonempty (getenv_or E (u"GEMINI_API_KEY")
                        (getenv_or E (u"GOOGLE_API_KEY") []))); [|discriminate].
  reflexivity.
Qed.

(** X16. A library handle exists only if an API key was found and the
    library is installed, and it is the handle the library built for the
    preferred model (after a successful [configure]) or for the secondary
    one. *)
Theorem module_config_handle (h : Handle E) :
  _genai_model (module_config E) = Some h ->
  nonempty (API_KEY (module_config E)) = true /\
  exists lib,
    genai E = Some lib /\
    ((configure lib (API_KEY (module_config E)) = true /\
      GenerativeModel lib (DEFAULT_MODEL (module_config E)) = Some h) \/
     GenerativeModel lib FALLBACK_MODEL = Some h).
Proof.
  unfold module_config. simpl.
  destruct (genai E) as [lib|]; [|discriminate].
  destruct (nonempty (getenv_or E (u"GEMINI_API_KEY")
                        (getenv_or E (u"GOOGLE_API_KEY") []))); [|discriminate].
  intros H. split; [reflexivity|]. exists lib. split; [reflexivity|].
  destruct (configure lib _) eqn:Hc.
  - destruct (GenerativeModel lib match getenv E (u"MODEL") with
                                  | Some m => m
                                  | None => u"gemini-2.0-flash"
                                  end) as [h'|] eqn:Hm.
    + left. split; [reflexivity|]. congruence.
    + right. exact H.
  - right. exact H.
Qed.

(** X17. A process started without an API key cannot summarize: there is no
    library handle either, so every request whose prompt can be built ends in
    the RuntimeError of exhaustion, with no call made at all. *)
Theorem keyless_process_cannot_summarize :
  API_KEY (module_config E) = [] ->
  _genai_model (module_config E) = None /\
  forall text options prompt st,
    build_summary_prompt E text options = Ok prompt ->
    summarize (module_config E) text options st =
      (Exc (mk_exn RuntimeError (u"All summarization methods failed")), st).
Proof.
  intros Hkey.
  assert (Hnone : _genai_model (module_config E) = None).
  { destruct (_genai_model (module_config E)) as [h|] eqn:Hh; [|reflexivity].
    apply module_config_handle_aux in Hh. rewrite Hkey in Hh. discriminate. }
  split; [exact Hnone|].
  intros text options prompt st Hp.
  assert (Hne : nonempty (API_KEY (module_config E)) = false)
    by (rewrite Hkey; reflexivity).
  erewrite summarize_cases with (r1 := None) (r2 := None) (r3 := None);
    [reflexivity | exact Hp | | | ].
  - simpl. unfold _genai_summarize. rewrite Hnone. reflexivity.
  - simpl. apply http_generate_keyless. exact Hne.
  - simpl. apply http_generate_keyless. exact Hne.
Qed.

End StartUp.

(* ================================================================== *)
(** ** The diagnostic script *)

(** The script's subscript chain is the application's without the final
    [strip]. *)
Lemma extract_text_via_result_text (data : json) :
  extract_text data = obind (result_text data) (py_method_str (u"strip") strip).
Proof.
  unfold extract_text, result_text.
  destruct (py_item_key data (u"candidates")) as [a|]; [|reflexivity].
  cbn [obind]. destruct (py_item_0 a) as [b|]; [|reflexivity].
  cbn [obind]. destruct (py_item_key b (u"content")) as [c|]; [|reflexivity].
  cbn [obind]. destruct (py_item_key c (u"parts")) as [d|]; [|reflexivity].
  cbn [obind]. destruct (py_item_0 d) as [e|]; [|reflexivity].
  reflexivity.
Qed.

Section DiagnosticProperties.

Variable E : Env.

Lemma test_model_result (api_key text model_url : pystr) (st : state E) :
  test_model api_key text model_url st =
    (Ok match fst (requests_post E (test_request api_key text model_url)
                     (world st)) with
        | HttpRaise e => Failure e
        | HttpResponse code payload =>
            if (code =? 200)%Z then
              match obind (response_json payload) result_text with
              | Ok v => Success v
              | Exc e => Failure e
              end
            else ErrorStatus code
        end,
     after_post (test_request api_key text model_url) st).
Proof.
  unfold test_model, try_except, bind, call_post, after_post, lift, ret.
  destruct (requests_post E _ (world st)) as [out w]. simpl.
  destruct out as [e|code payload]; simpl; [reflexivity|].
  destruct (code =? 200)%Z; [|reflexivity].
  destruct payload as [data|]; simpl; [|reflexivity].
  destruct (result_text data); reflexivity.
Qed.

(** X18. The script always runs both tests, gemini-2.0-flash first and
    gemini-1.5-flash second, one post each, and raises nothing: a failure of
    the first test (an exception, a status other than 200, an unexpected
    body) is reported and the second test is still made. *)
Theorem test_api_runs_both (api_key text : pystr) (st : state E) :
  let first_request := test_request api_key text url_2_0 in
  let second_request := test_request api_key text url_1_5 in
  exists first second,
    test_api api_key text st =
      (Ok (first, second), after_post second_request (after_post first_request st)) /\
    (forall e,
        fst (requests_post E first_request (world st)) = HttpRaise e ->
        first = Failure e) /\
    (forall code payload,
        fst (requests_post E first_request (world st)) = HttpResponse code payload ->
        code <> 200%Z -> first = ErrorStatus code).
Proof.
  intros first_request second_request. unfold test_api, bind, ret.
  rewrite (test_model_result api_key text url_2_0 st).
  fold first_request.
  rewrite (test_model_result api_key text url_1_5 (after_post first_request st)).
  fold second_request.
  do 2 eexists. split; [reflexivity|]. split.
  - intros e ->. reflexivity.
  - intros code payload -> Hcode.
    destruct (Z.eqb_spec code 200); [contradiction|reflexivity].
Qed.

(** X19. The script and the application agree. The script's two requests
    have the URL, the headers and the body of the raw-network requests the
    application sends for the models gemini-2.0-flash and gemini-1.5-flash
    with the same key and text; only the timeout differs (30 against 40).
    And on one and the same answer, whenever the application's call returns a
    text the script reports success with that text untrimmed, while a success
    the script reports for a text that is not a string is absent for the
    application. *)
Theorem test_api_agrees_with_app (cfg : config E) (text : pystr) (st : state E)
    (model_name model_url : pystr) (out : http_outcome) :
  (url (test_request (API_KEY cfg) text url_2_0)
     = url (generate_request cfg text (u"gemini-2.0-flash")) /\
   url (test_request (API_KEY cfg) text url_1_5)
     = url (generate_request cfg text FALLBACK_MODEL) /\
   headers (test_request (API_KEY cfg) text model_url)
     = headers (generate_request cfg text model_name) /\
   body (test_request (API_KEY cfg) text model_url)
     = body (generate_request cfg text model_name) /\
   timeout (test_request (API_KEY cfg) text model_url) = 30%Z /\
   timeout (generate_request cfg text model_name) = 40%Z) /\
  (nonempty (API_KEY cfg) = true ->
   fst (requests_post E (generate_request cfg text model_name) (world st)) = out ->
   fst (requests_post E (test_request (API_KEY cfg) text model_url) (world st)) = out ->
   (forall x,
       fst (_http_generate cfg text model_name st) = Ok (Some x) ->
       exists t,
         fst (test_model (API_KEY cfg) text model_url st) = Ok (Success (JStr t)) /\
         x = strip t) /\
   (forall v,
       fst (test_model (API_KEY cfg) text model_url st) = Ok (Success v) ->
       is_str v = false ->
       fst (_http_generate cfg text model_name st) = Ok None)).
Proof.
  split; [repeat split|].
  intros Hkey Happ Hscript.
  rewrite (http_generate_keyed cfg text model_name st Hkey), Happ.
  rewrite (test_model_result (API_KEY cfg) text model_url st), Hscript.
  cbn [fst].
  destruct out as [e|code payload]; cbn [spec_http_text].
  { split; intros; discriminate. }
  destruct (code =? 200)%Z.
  2:{ destruct payload; split; intros; discriminate. }
  destruct payload as [data|]; cbn [response_json obind].
  2:{ split; intros; discriminate. }
  pose proof (extract_text_shape data) as Hshape.
  rewrite extract_text_via_result_text in Hshape.
  destruct (result_text data) as [v|e]; cbn [obind] in Hshape.
  - destruct v; cbn [py_method_str] in Hshape;
      try (rewrite Hshape; split; [intros; discriminate | reflexivity]).
    split.
    + intros x Hx. eexists. split; [reflexivity|]. congruence.
    + intros v Hv Hs. injection Hv as <-. discriminate Hs.
  - rewrite Hshape. split; intros; discriminate.
Qed.

End DiagnosticProperties.

(* ================================================================== *)
(** ** Further runs on concrete inputs *)

(** X1 for the text "hi" between two spaces and a tab. *)
Lemma prompt_ignores_outer_whitespace_witness :
  build_summary_prompt Script.keyed (u"  " ++ u"hi" ++ [9%N]) (JObj []) =
  build_summary_prompt Script.keyed (u"hi") (JObj []).
Proof.
  apply (@prompt_ignores_outer_whitespace Script.keyed (u"  ") (u"hi") [9%N]);
    reflexivity.
Defined.

(** X2 for the length 0. *)
Lemma falsy_option_is_default_witness :
  build_summary_prompt Script.keyed (u"C")
    (JObj (dict_set [] (u"length") (JInt 0))) =
  build_summary_prompt Script.keyed (u"C")
    (JObj (dict_set [] (u"length") (JStr (u"medium")))).
Proof.
  apply (proj1 (@falsy_option_is_default Script.keyed (u"C") []) (JInt 0)).
  reflexivity.
Defined.

(** X3 for options that are a number, and for a length that is one. *)
Lemma prompt_builder_succeeds_iff_witness :
  build_summary_prompt Script.keyed (u"C") (JInt 5) =
    Exc (no_attribute (JInt 5) (u"get")) /\
  build_summary_prompt Script.keyed (u"C") (JObj [ (u"length", JInt 5) ]) =
    Exc (no_attribute (JInt 5) (u"lower")).
Proof.
  split.
  - apply (proj1 (proj2 (@prompt_builder_succeeds_iff Script.keyed (u"C") (JInt 5)))).
    intros d H. discriminate H.
  - apply (proj1 (proj2 (proj2 (@prompt_builder_succeeds_iff Script.keyed (u"C")
                                  (JObj [ (u"length", JInt 5) ])))
                    [ (u"length", JInt 5) ] eq_refl)).
    reflexivity.
Defined.

(** X4 for an option the builder does not know. *)
Lemma prompt_reads_three_keys_witness :
  build_summary_prompt Script.keyed (u"C") (JObj []) =
  build_summary_prompt Script.keyed (u"C") (JObj [ (u"verbose", JBool true) ]).
Proof.
  apply (@prompt_reads_three_keys Script.keyed (u"C") []
           [ (u"verbose", JBool true) ]); reflexivity.
Defined.

(** X5 for a response whose text is " Hi ". *)
Lemma genai_summarize_reads_text_witness :
  _genai_summarize Script.cfg_keyed (u"p")
    (Script.start Script.keyed ([Script.reply_text (u" Hi ")], []))
  = (Ok (Some (u"Hi")),
     after_generate (E:=Script.keyed) (u"gemini-2.0-flash") (GenText (u"p"))
       (Script.start Script.keyed ([Script.reply_text (u" Hi ")], []))).
Proof.
  destruct (@genai_summarize_reads_text Script.keyed Script.cfg_keyed
              (u"gemini-2.0-flash") (u"p")
              (Script.start Script.keyed ([Script.reply_text (u" Hi ")], []))
              eq_refl) as (_ & Htext & _).
  exact (Htext _ 32%N (u"Hi ") eq_refl eq_refl).
Defined.

(** X6 for a response without text whose first candidate holds " Hi ". *)
Lemma genai_summarize_reads_candidates_witness :
  _genai_summarize Script.cfg_keyed (u"p")
    (Script.start Script.keyed
       ([GenReturn (Script.candidates_response (u" Hi "))], []))
  = (Ok (Some (u"Hi")),
     after_generate (E:=Script.keyed) (u"gemini-2.0-flash") (GenText (u"p"))
       (Script.start Script.keyed
          ([GenReturn (Script.candidates_response (u" Hi "))], []))).
Proof.
  destruct (@genai_summarize_reads_candidates Script.keyed Script.cfg_keyed
              (u"gemini-2.0-flash") (u"p")
              (Script.start Script.keyed
                 ([GenReturn (Script.candidates_response (u" Hi "))], []))
              (Script.candidates_response (u" Hi "))
              eq_refl eq_refl eq_refl) as [Hcand _].
  exact (Hcand _ _ _ _ _ (u" Hi ") eq_refl eq_refl eq_refl eq_refl).
Defined.

(** X7 for the same response: the image path returns absent. *)
Lemma image_context_reads_text_only_witness :
  image_context Script.cfg_keyed (u"p")
    {| inline_data := []; mime_type := u"image/png" |}
    (Script.start Script.keyed
       ([GenReturn (Script.candidates_response (u" Hi "))], []))
  = (Ok None,
     after_generate (E:=Script.keyed) (u"gemini-2.0-flash")
       (GenVision (u"p") {| inline_data := []; mime_type := u"image/png" |})
       (Script.start Script.keyed
          ([GenReturn (Script.candidates_response (u" Hi "))], []))).
Proof.
  destruct (@image_context_reads_text_only Script.keyed Script.cfg_keyed
              (u"gemini-2.0-flash") (u"p")
              {| inline_data := []; mime_type := u"image/png" |}
              (Script.start Script.keyed
                 ([GenReturn (Script.candidates_response (u" Hi "))], []))
              (Script.candidates_response (u" Hi "))
              eq_refl eq_refl) as (_ & Hnone & _).
  exact (Hnone eq_refl).
Defined.

(** X8 for the run in which the secondary model answers. *)
Lemma summarize_result_shape_witness :
  summary Script.fallback_record <> [] /\
  strip (summary Script.fallback_record) = summary Script.fallback_record /\
  meta_mode Script.fallback_record = u"summarize" /\
  meta_options Script.fallback_record = JObj [] /\
  tokens_used Script.fallback_record = JNull /\
  (meta_model Script.fallback_record = DEFAULT_MODEL Script.cfg_keyed \/
   meta_model Script.fallback_record = FALLBACK_MODEL).
Proof.
  exact (@summarize_result_shape Script.keyed Script.cfg_keyed (u"hello") (JObj [])
           Script.falling_through _ Script.fallback_record
           summarize_falls_through).
Defined.

(** X9 for the failing network: the exception is not the prompt
    builder's, so the prompt was built. *)
Lemma summarize_raises_only_witness :
  exists prompt,
    build_summary_prompt Script.keyed_no_library (u"hello") (JObj []) = Ok prompt.
Proof.
  destruct (@summarize_raises_only Script.keyed_no_library Script.cfg_no_library
              (u"hello") (JObj []) _ _ _ network_down_run)
    as [(_ & Hclass & _) | [Hprompt _]].
  - discriminate Hclass.
  - exact Hprompt.
Defined.

(** X10: the primary model answers two spaces, the secondary " X ". *)
Lemma blank_reply_is_not_success_witness :
  _http_generate Script.cfg_no_library Script.hello_prompt
    (DEFAULT_MODEL Script.cfg_no_library) Script.blank_then_text
  = (Ok (Some []),
     after_post
       (generate_request Script.cfg_no_library Script.hello_prompt
          (DEFAULT_MODEL Script.cfg_no_library)) Script.blank_then_text) /\
  summarize Script.cfg_no_library (u"hello") (JObj []) Script.blank_then_text
  = (Ok {| summary := u"X"; meta_model := FALLBACK_MODEL;
           meta_mode := u"summarize"; meta_source := u"http-fallback";
           meta_options := JObj []; tokens_used := JNull |},
     after_post
       (generate_request Script.cfg_no_library Script.hello_prompt FALLBACK_MODEL)
       (after_post
          (generate_request Script.cfg_no_library Script.hello_prompt
             (DEFAULT_MODEL Script.cfg_no_library)) Script.blank_then_text)).
Proof.
  exact (@blank_reply_is_not_success Script.keyed_no_library Script.cfg_no_library
           (u"hello") (JObj []) Script.hello_prompt None
           Script.blank_then_text Script.blank_then_text _ (u"  ")
           eq_refl eq_refl eq_refl eq_refl eq_refl eq_refl eq_refl).
Defined.

(** X11 for the request of " hello " while the network is down: a 502. *)
Lemma analyze_wraps_summarize_witness :
  analyze Script.cfg_no_library Script.hello_request
    (Script.network_down Script.keyed_no_library (fun w => w))
  = (Ok {| resp_body :=
             JObj [ (u"error", JStr (u"All summarization methods failed"));
                    (u"error_type", JStr (u"RuntimeError")) ];
           resp_status := 502 |},
     Script.finish (E:=Script.keyed_no_library) ([], [])
       [ EvPost Script.keyed_no_library
           (generate_request Script.cfg_no_library Script.hello_prompt
              (u"gemini-2.0-flash"));
         EvPost Script.keyed_no_library
           (generate_request Script.cfg_no_library Script.hello_prompt
              FALLBACK_MODEL) ]).
Proof.
  exact (@analyze_wraps_summarize Script.keyed_no_library Script.cfg_no_library
           Script.hello_request [ (u"text", JStr (u" hello ")) ] (u" hello ")
           eq_refl eq_refl eq_refl eq_refl eq_refl
           (summarize Script.cfg_no_library)
           (image_context Script.cfg_no_library)
           (Script.network_down Script.keyed_no_library (fun w => w))).
Defined.

(** X12 for the mode "poem" and for a form without a mode. *)
Lemma analyze_rejects_unsupported_witness :
  analyze Script.cfg_keyed Script.poem_request (Script.start Script.keyed ([], []))
  = (Ok {| resp_body := error_body (u"Unsupported JSON mode");
           resp_status := 400 |}, Script.start Script.keyed ([], [])) /\
  analyze Script.cfg_keyed
    {| content_type := None; get_json := JNull; form := []; files := [] |}
    (Script.start Script.keyed ([], []))
  = (Ok {| resp_body := error_body (u"Unsupported request format or mode");
           resp_status := 400 |}, Script.start Script.keyed ([], [])).
Proof.
  split.
  - apply (proj1 (@analyze_rejects_unsupported Script.keyed Script.cfg_keyed
                    Script.poem_request)
             [ (u"mode", JStr (u"poem")); (u"text", JStr (u"hello")) ]);
      reflexivity.
  - apply (proj2 (@analyze_rejects_unsupported Script.keyed Script.cfg_keyed
                    {| content_type := None; get_json := JNull;
                       form := []; files := [] |}));
      [reflexivity | discriminate].
Defined.

(** X13 for a body that is an array. *)
Lemma analyze_unguarded_types_witness :
  analyze Script.cfg_keyed Script.array_request
    (Script.start Script.keyed ([], []))
  = (Exc (mk_exn AttributeError (u"'list' object has no attribute 'get'")),
     Script.start Script.keyed ([], [])).
Proof.
  apply (proj1 (@analyze_unguarded_types Script.keyed Script.cfg_keyed
                  Script.array_request)); [reflexivity|].
  intros d H. discriminate H.
Defined.

(** X14 for the blank text, answered 400. *)
Lemma analyze_status_codes_witness :
  (400 = 200 \/ 400 = 400 \/ 400 = 502)%Z /\
  (is_json_request Script.blank_text_request = false -> 400%Z <> 502%Z).
Proof.
  exact (@analyze_status_codes Script.keyed Script.cfg_keyed
           Script.blank_text_request (summarize Script.cfg_keyed)
           (image_context Script.cfg_keyed)
           (Script.start Script.keyed ([], []))
           (Script.start Script.keyed ([], []))
           {| resp_body := error_body (u"No text provided"); resp_status := 400 |}
           eq_refl).
Defined.

(** X15 for a four-byte file: one library call, with the file in base64. *)
Lemma image_request_calls_witness :
  exists resp,
    analyze Script.cfg_keyed Script.image_request
      (Script.start Script.keyed ([Script.reply_text (u"A logo.")], []))
    = (Ok resp,
       after_generate (E:=Script.keyed) (u"gemini-2.0-flash")
         (GenVision spec_image_preamble
            {| inline_data := u"iVBORw=="; mime_type := u"image/png" |})
         (Script.start Script.keyed ([Script.reply_text (u"A logo.")], []))).
Proof.
  exact (@image_request_calls Script.keyed Script.cfg_keyed Script.image_request
           {| fs_data := [x89; x50; x4e; x47]; fs_mimetype := u"image/png" |}
           []
           (Script.start Script.keyed ([Script.reply_text (u"A logo.")], []))
           eq_refl eq_refl eq_refl eq_refl).
Defined.

(** X16 for a library that rejects the preferred model. *)
Lemma module_config_handle_witness :
  nonempty (API_KEY (module_config Script.keyed_old_library)) = true /\
  exists lib,
    genai Script.keyed_old_library = Some lib /\
    ((configure lib (API_KEY (module_config Script.keyed_old_library)) = true /\
      GenerativeModel lib (DEFAULT_MODEL (module_config Script.keyed_old_library))
      = Some FALLBACK_MODEL) \/
     GenerativeModel lib FALLBACK_MODEL = Some FALLBACK_MODEL).
Proof.
  exact (@module_config_handle Script.keyed_old_library FALLBACK_MODEL eq_refl).
Defined.

(** X17 for a process started without a key. *)
Lemma keyless_process_cannot_summarize_witness :
  summarize (module_config Script.keyless) (u"hello") (JObj [])
    (Script.start Script.keyless ([Script.reply_text (u"Hi")], [Script.reply_json (u"X")]))
  = (Exc (mk_exn RuntimeError (u"All summarization methods failed")),
     Script.start Script.keyless
       ([Script.reply_text (u"Hi")], [Script.reply_json (u"X")])).
Proof.
  apply (proj2 (@keyless_process_cannot_summarize Script.keyless eq_refl)
           (u"hello") (JObj []) Script.hello_prompt).
  reflexivity.
Defined.

(** X18 when the first post raises and the second is answered " X ". *)
Lemma test_api_runs_both_witness :
  exists first second,
    test_api (u"secret") (u"hello")
      (Script.start Script.keyed
         ([], [HttpRaise Script.connection_lost; Script.reply_json (u" X ")]))
    = (Ok (first, second),
       after_post (test_request (u"secret") (u"hello") url_1_5)
         (after_post (test_request (u"secret") (u"hello") url_2_0)
            (Script.start Script.keyed
               ([], [HttpRaise Script.connection_lost;
                     Script.reply_json (u" X ")])))) /\
    first = Failure Script.connection_lost.
Proof.
  destruct (@test_api_runs_both Script.keyed (u"secret") (u"hello")
              (Script.start Script.keyed
                 ([], [HttpRaise Script.connection_lost;
                       Script.reply_json (u" X ")])))
    as (first & second & Hrun & Hraise & _).
  exists first, second. split; [exact Hrun|].
  apply Hraise. reflexivity.
Defined.

(** X19 on the answer " X ": the application returns X, the script reports
    success with " X ". *)
Lemma test_api_agrees_with_app_witness :
  exists t,
    fst (test_model (API_KEY Script.cfg_keyed) (u"hello") url_2_0
           (Script.start Script.keyed ([], [Script.reply_json (u" X ")])))
    = Ok (Success (JStr t)) /\
    u"X" = strip t.
Proof.
  destruct (@test_api_agrees_with_app Script.keyed Script.cfg_keyed (u"hello")
              (Script.start Script.keyed ([], [Script.reply_json (u" X ")]))
              (u"gemini-2.0-flash") url_2_0 (Script.reply_json (u" X ")))
    as [_ Hsame].
  destruct (Hsame eq_refl eq_refl eq_refl) as [Happ _].
  exact (Happ (u"X") eq_refl).
Defined.

(** A [text] property that raises AttributeError is a missing attribute for
    [hasattr]: the candidates are read, and " Hi " comes back trimmed. *)
Example raising_text_falls_back_on_candidates :
  fst (_genai_summarize Script.cfg_keyed (u"p")
         (Script.start Script.keyed
            ([GenReturn
                {| resp_text :=
                     Raising (mk_exn AttributeError (u"no text"));
                   resp_candidates :=
                     resp_candidates (Script.candidates_response (u" Hi ")) |}],
             [])))
  = Ok (Some (u"Hi")).
Proof. reflexivity. Qed.
